(** * Audio dataset preparation scripts: a shallow embedding

    The repository holds five flat batch scripts:
    - [convert_to_wav_filter30s.py]  (webm -> wav, keep recordings of at most 30 s),
    - [augmented_2x_speed.py], [augmented_volume.py], [augmented_noise.py],
      [augmented_lowpass.py]  (one augmentation each, driven by a CSV manifest).

    The scripts are embedded as pure functions over an explicit script state.
    Everything the scripts ask of the outside world (file existence, the probe
    and transcode tools, the audio codec library, the random source, the CSV
    reader) is an oracle of the environment record [Env]; each oracle takes the
    index of the row being processed, so that answers may change between rows. *)

From Stdlib Require Import ZArith Lia Ascii.
From Stdlib Require Import Floats.SpecFloat.
From stdpp Require Import base option list gmap strings.

(** ** Python string methods used by the scripts *)

Module PyStr.

(** [s.startswith(p)] *)
Fixpoint startswith (s p : string) {struct p} : bool :=
  match p, s with
  | EmptyString, _ => true
  | String _ _, EmptyString => false
  | String a p', String b s' => if Ascii.eqb a b then startswith s' p' else false
  end.

(** [s.endswith(suf)]: some tail of [s] is [suf]. *)
Fixpoint endswith (s suf : string) : bool :=
  if String.eqb s suf then true
  else match s with
       | EmptyString => false
       | String _ s' => endswith s' suf
       end.

(** [s.replace(old, new)] for a non-empty [old]: a left-to-right scan that
    replaces every non-overlapping occurrence.  [skip] counts the characters
    of a matched occurrence that are still to be dropped. *)
Fixpoint replace_go (old new : string) (skip : nat) (s : string) : string :=
  match s with
  | EmptyString => EmptyString
  | String c rest =>
      match skip with
      | S k => replace_go old new k rest
      | O =>
          if startswith s old
          then new +:+ replace_go old new (Nat.pred (String.length old)) rest
          else String c (replace_go old new 0 rest)
      end
  end.

Definition replace (s old new : string) : string := replace_go old new 0 s.

(** [s.count(old)] for a non-empty [old], with the same scan. *)
Fixpoint count_go (old : string) (skip : nat) (s : string) : nat :=
  match s with
  | EmptyString => O
  | String c rest =>
      match skip with
      | S k => count_go old k rest
      | O =>
          if startswith s old
          then S (count_go old (Nat.pred (String.length old)) rest)
          else count_go old 0 rest
      end
  end.

Definition count (s old : string) : nat := count_go old 0 s.

(** The text before the last occurrence of the separator character, if any. *)
Fixpoint before_last (sep : ascii) (s : string) : option string :=
  match s with
  | EmptyString => None
  | String c rest =>
      match before_last sep rest with
      | Some h => Some (String c h)
      | None => if Ascii.eqb c sep then Some EmptyString else None
      end
  end.

(** [s.rsplit(sep, 1)[0]] for a one-character separator. *)
Definition rsplit1_head (s : string) (sep : ascii) : string :=
  default s (before_last sep s).

End PyStr.

(** ** [os.path.join] with two components (POSIX) *)

Definition os_path_join (a b : string) : string :=
  if PyStr.startswith b "/" then b
  else if String.eqb a "" then b
  else if PyStr.endswith a "/" then a +:+ b
  else a +:+ "/" +:+ b.

(** ** Binary64 numbers

    Python floats and NumPy [float64] samples are IEEE 754 binary64 values,
    written here with the standard library's [spec_float]. *)

Module F64.

Definition prec : Z := 53.
Definition emax : Z := 1024.

Definition of_Z (z : Z) : spec_float := binary_normalize prec emax z 0 false.
Definition mul : spec_float -> spec_float -> spec_float := SFmul prec emax.
Definition add : spec_float -> spec_float -> spec_float := SFadd prec emax.
Definition div : spec_float -> spec_float -> spec_float := SFdiv prec emax.
Definition opp : spec_float -> spec_float := SFopp.
Definition abs : spec_float -> spec_float := SFabs.

Definition is_nan (x : spec_float) : bool :=
  match x with S754_nan => true | _ => false end.

(** Python's [x < y], [x <= y], [x > y], [x >= y]: false when a NaN is involved. *)
Definition ltb (x y : spec_float) : bool := SFltb x y.
Definition leb (x y : spec_float) : bool := SFleb x y.
Definition gtb (x y : spec_float) : bool := SFltb y x.
Definition geb (x y : spec_float) : bool := SFleb y x.

(** The literals of the scripts. *)
Definition one : spec_float := of_Z 1.
Definition minus_one : spec_float := of_Z (-1).
Definition thirty : spec_float := of_Z 30.
Definition half : spec_float := div (of_Z 1) (of_Z 2).
Definition c0_02 : spec_float := div (of_Z 2) (of_Z 100).

End F64.

(** ** NumPy operations used by the noise stage *)

Module Np.

(** [np.maximum] on scalars, as the reduction applies it: the first
    argument when it is a NaN or the greater one, otherwise the second (of
    two equal values, such as zeros of opposite sign, the later one stays). *)
Definition maximum (a b : spec_float) : spec_float :=
  if F64.is_nan a || F64.gtb a b then a else b.

(** [np.amax(data)]: the reduction of [np.maximum] over all samples;
    [None] stands for the [ValueError] raised on an empty array. *)
Definition amax (data : list spec_float) : option spec_float :=
  match data with
  | [] => None
  | x :: rest => Some (foldl maximum x rest)
  end.

(** [np.clip(x, lo, hi)] on a scalar: [MIN(MAX(x, lo), hi)], where both
    [MAX] and [MIN] return their first argument when it is a NaN. *)
Definition clip_max (a b : spec_float) : spec_float :=
  if F64.is_nan a then a else if F64.gtb a b then a else b.
Definition clip_min (a b : spec_float) : spec_float :=
  if F64.is_nan a then a else if F64.ltb a b then a else b.
Definition clip (x lo hi : spec_float) : spec_float :=
  clip_min (clip_max x lo) hi.

End Np.

(** ** The noise transform of [augmented_noise.py] (lines 67-73) *)

Module NoiseStage.

(** [noise_amp = 0.02 * np.random.uniform(0.5, 1.0) * np.amax(data)],
    with [u] the uniform draw.  [None]: [np.amax] raised. *)
Definition noise_amp (u : spec_float) (data : list spec_float) : option spec_float :=
  m ← Np.amax data;
  Some (F64.mul (F64.mul F64.c0_02 u) m).

(** [data + noise_amp * np.random.normal(size=data.shape)], with
    [normal k] the draw for sample [k]. *)
Definition add_noise (amp : spec_float) (normal : nat -> spec_float)
    (data : list spec_float) : list spec_float :=
  imap (λ k x, F64.add x (F64.mul amp (normal k))) data.

(** [np.clip(noisy_data, -1.0, 1.0)] *)
Definition clip_all (data : list spec_float) : list spec_float :=
  (λ y, Np.clip y F64.minus_one F64.one) <$> data.

(** The buffer handed to [sf.write]. *)
Definition noisy_data (u : spec_float) (normal : nat -> spec_float)
    (data : list spec_float) : option (list spec_float) :=
  amp ← noise_amp u data;
  Some (clip_all (add_noise amp normal data)).

(** The amplitude as the specification words it: 0.02 x U x the peak
    absolute sample, the maximum of the absolute values of all samples. *)
Definition peak_absolute_sample (data : list spec_float) : option spec_float :=
  Np.amax (F64.abs <$> data).

Definition noise_amp_spec (u : spec_float) (data : list spec_float) : option spec_float :=
  m ← peak_absolute_sample data;
  Some (F64.mul (F64.mul F64.c0_02 u) m).

End NoiseStage.

(** ** The manifest: a [pandas.DataFrame] of string cells *)

Record DataFrame := {
  df_columns : list string;
  df_rows : list (gmap string string)
}.

(** [df[col] = v]: an existing column is overwritten in every row, a new
    column is appended. *)
Definition df_set_column (col v : string) (d : DataFrame) : DataFrame :=
  {| df_columns := if decide (col ∈ df_columns d) then df_columns d
                   else df_columns d ++ [col];
     df_rows := (λ r, <[col := v]> r) <$> df_rows d |}.

(** [df.at[idx, col] = v] for a row label [idx] produced by [df.iterrows()]. *)
Definition df_at_set (idx : nat) (col v : string) (d : DataFrame) : DataFrame :=
  {| df_columns := df_columns d;
     df_rows := alter (λ r, <[col := v]> r) idx (df_rows d) |}.

(** [df.at[idx, col]] *)
Definition df_at (idx : nat) (col : string) (d : DataFrame) : option string :=
  r ← df_rows d !! idx; r !! col.

(** ** The outside world *)

Inductive AudioFilter :=
| Atempo2                         (* -filter:a atempo=2.0 *)
| LowpassF (cutoff : Z)           (* -af lowpass=f={cutoff} *)
| VolumeDb (gain_db : spec_float) (* -filter:a volume={gain_db}dB *)
| Pcm16kMono.                     (* -acodec pcm_s16le -ar 16000 -ac 1 *)

Inductive Event :=
| EvProbe (path : string)
| EvFfmpeg (input : string) (f : AudioFilter) (output : string)
| EvSfRead (path : string)
| EvSfWrite (path : string) (data : list spec_float) (sr : Z)
| EvCopy (src dst : string).

Record Env := {
  (** [os.makedirs(folder, exist_ok=True)] returned normally *)
  makedirs_ok : string -> bool;
  (** [os.path.exists(csv_path)] at start-up *)
  manifest_exists : string -> bool;
  (** [pd.read_csv(csv_path)]; [None]: it raised *)
  read_csv : string -> option DataFrame;
  (** [df.to_csv(output_csv, index=False)] returned normally *)
  to_csv_ok : string -> bool;
  (** [os.listdir(folder)]; [None]: it raised *)
  listdir : string -> option (list string);
  (** [os.path.exists(path)] while row [idx] is processed *)
  path_exists : nat -> string -> bool;
  (** standard output of the probe tool; [None]: [subprocess.run] raised *)
  ffprobe : nat -> string -> option string;
  (** [float(text.strip())]; [None]: it raised [ValueError] *)
  py_float : string -> option spec_float;
  (** the transcode tool exited with status zero *)
  ffmpeg_ok : nat -> string -> AudioFilter -> string -> bool;
  (** after a failed transcode, the [e.stderr.decode()] of the
      [CalledProcessError] handler returns; [false]: the tool left a
      non-empty standard error that is not valid UTF-8 *)
  stderr_decodes : nat -> string -> AudioFilter -> string -> bool;
  (** [shutil.copy(src, dst)] returned normally *)
  copy_ok : nat -> string -> string -> bool;
  (** [random.randint(3000, 6000)] *)
  random_cutoff : nat -> Z;
  (** [round(random.uniform(-3.0, 3.0), 2)] *)
  random_gain_db : nat -> spec_float;
  (** [np.random.uniform(0.5, 1.0)] *)
  np_uniform : nat -> spec_float;
  (** [np.random.normal(size=data.shape)], sample by sample *)
  np_normal : nat -> nat -> spec_float;
  (** [sf.read(path)]: samples (flattened) and sample rate; [None]: it raised *)
  sf_read : nat -> string -> option (list spec_float * Z);
  (** [sf.write(path, data, sr)] returned normally *)
  sf_write_ok : nat -> string -> list spec_float -> Z -> bool
}.

(** ** The four augmentation scripts *)

Inductive Stage := Speed | Volume | Noise | Lowpass.

Definition filtered_folder : string := "filteredforwhisper".

Definition augmented_folder (st : Stage) : string :=
  match st with
  | Speed => "augmented_2x"
  | Volume => "augmented_volume"
  | Noise => "augmented_noise"
  | Lowpass => "augmented_lowpass"
  end.

Definition csv_path (st : Stage) : string :=
  match st with
  | Speed => "recorded_ayats_wav.csv"
  | Volume => "recorded_ayats_wav_reverb.csv"
  | Noise => "recorded_ayats_wav_volume.csv"
  | Lowpass => "recorded_ayats_wav_with_Augmentation.csv"
  end.

Definition output_csv (st : Stage) : string :=
  match st with
  | Speed => "recorded_ayats_wav_augmented.csv"
  | Volume => "recorded_ayats_wav_volume.csv"
  | Noise => "recorded_ayats_wav_with_Augmentation.csv"
  | Lowpass => "recorded_ayats_wav_Augmantation.csv"
  end.

(** The column that receives the derived path. *)
Definition augmented_column (st : Stage) : string :=
  match st with
  | Speed => "augmented_audio_2x"
  | Volume => "augmented_audio_volume"
  | Noise => "augmented_audio_noise"
  | Lowpass => "augmented_audio_lowpass"
  end.

(** The second argument of [filename.replace('.wav', ...)]. *)
Definition replacement (st : Stage) : string :=
  match st with
  | Speed => "_2x.wav"
  | Volume => "_volume.wav"
  | Noise => "_noise.wav"
  | Lowpass => "_lowpass.wav"
  end.

(** The transform suffix alone. *)
Definition suffix (st : Stage) : string :=
  match st with
  | Speed => "_2x"
  | Volume => "_volume"
  | Noise => "_noise"
  | Lowpass => "_lowpass"
  end.

(** Which scripts probe the duration: all but [augmented_2x_speed.py]. *)
Definition probes_duration (st : Stage) : bool :=
  match st with
  | Speed => false
  | Volume | Noise | Lowpass => true
  end.

Definition output_name (st : Stage) (filename : string) : string :=
  PyStr.replace filename ".wav" (replacement st).

Definition output_path (st : Stage) (filename : string) : string :=
  os_path_join (augmented_folder st) (output_name st filename).

Definition input_path (filename : string) : string :=
  os_path_join filtered_folder filename.

(** The script state: the manifest, the counters, and the log of the
    external actions performed so far (oldest first). *)
Record State := {
  df : DataFrame;
  success_count : nat;
  failed_count : nat;
  not_found_count : nat;
  deleted_count : nat;
  trace : list Event
}.

Definition set_df (f : DataFrame -> DataFrame) (s : State) : State :=
  {| df := f (df s); success_count := success_count s;
     failed_count := failed_count s; not_found_count := not_found_count s;
     deleted_count := deleted_count s; trace := trace s |}.

Definition log (evs : list Event) (s : State) : State :=
  {| df := df s; success_count := success_count s;
     failed_count := failed_count s; not_found_count := not_found_count s;
     deleted_count := deleted_count s; trace := trace s ++ evs |}.

Definition incr_success (s : State) : State :=
  {| df := df s; success_count := S (success_count s);
     failed_count := failed_count s; not_found_count := not_found_count s;
     deleted_count := deleted_count s; trace := trace s |}.

Definition incr_failed (s : State) : State :=
  {| df := df s; success_count := success_count s;
     failed_count := S (failed_count s); not_found_count := not_found_count s;
     deleted_count := deleted_count s; trace := trace s |}.

Definition incr_not_found (s : State) : State :=
  {| df := df s; success_count := success_count s;
     failed_count := failed_count s; not_found_count := S (not_found_count s);
     deleted_count := deleted_count s; trace := trace s |}.

Definition incr_deleted (s : State) : State :=
  {| df := df s; success_count := success_count s;
     failed_count := failed_count s; not_found_count := not_found_count s;
     deleted_count := S (deleted_count s); trace := trace s |}.

(** The body of the [try] block: the external actions it performs and, when
    no exception was raised, the output path it computed. *)
Definition transform (env : Env) (st : Stage) (idx : nat) (filename : string)
    : list Event * option string :=
  let inp := input_path filename in
  let out := output_path st filename in
  match st with
  | Speed =>
      ([EvFfmpeg inp Atempo2 out],
       if ffmpeg_ok env idx inp Atempo2 out then Some out else None)
  | Lowpass =>
      let cutoff := random_cutoff env idx in
      ([EvFfmpeg inp (LowpassF cutoff) out],
       if ffmpeg_ok env idx inp (LowpassF cutoff) out then Some out else None)
  | Volume =>
      let gain_db := random_gain_db env idx in
      ([EvFfmpeg inp (VolumeDb gain_db) out],
       if ffmpeg_ok env idx inp (VolumeDb gain_db) out then Some out else None)
  | Noise =>
      match sf_read env idx inp with
      | None => ([EvSfRead inp], None)
      | Some (data, sr) =>
          match NoiseStage.noisy_data (np_uniform env idx) (np_normal env idx) data with
          | None => ([EvSfRead inp], None)
          | Some noisy =>
              ([EvSfRead inp; EvSfWrite out noisy sr],
               if sf_write_ok env idx out noisy sr then Some out else None)
          end
      end
  end.

(** The [except] clauses return normally.  Those of the speed and volume
    scripts print [e.stderr.decode()] before they count the failure, and that
    call can raise; those of the noise and low-pass scripts print the
    exception itself. *)
Definition handler_returns (env : Env) (st : Stage) (idx : nat)
    (filename : string) : bool :=
  let inp := input_path filename in
  let out := output_path st filename in
  match st with
  | Speed => stderr_decodes env idx inp Atempo2 out
  | Volume => stderr_decodes env idx inp (VolumeDb (random_gain_db env idx)) out
  | Noise | Lowpass => true
  end.

(** The part of the loop body after the duration check: record the source
    path, run the transform, record its outcome.  [None]: the [except]
    clause raised, before it could count the failure. *)
Definition augment_row (env : Env) (st : Stage) (s : State) (idx : nat)
    (filename : string) : option State :=
  let s1 := set_df (df_at_set idx "original_audio" (input_path filename)) s in
  match transform env st idx filename with
  | (evs, Some out) =>
      Some (incr_success (set_df (df_at_set idx (augmented_column st) out) (log evs s1)))
  | (evs, None) =>
      if handler_returns env st idx filename then Some (incr_failed (log evs s1))
      else None
  end.

(** The duration check of the volume, noise and low-pass scripts. *)
Definition duration_of (env : Env) (stdout : string) : spec_float :=
  match py_float env stdout with
  | Some d => d
  | None => F64.of_Z 0
  end.

(** [str(row['Recording Name'])] for a row of the frame [d].  A row carries
    every column of its frame: a cell that is missing from the row is one that
    pandas holds as NaN, and prints as 'nan'.  [None]: the frame has no such
    column, and the lookup raises [KeyError]. *)
Definition recording_name (d : DataFrame) (row : gmap string string)
    : option string :=
  match row !! "Recording Name" with
  | Some v => Some v
  | None => if decide ("Recording Name" ∈ df_columns d) then Some "nan" else None
  end.

(** One iteration of [for idx, row in df.iterrows()].  [None]: an exception
    escaped the loop body ([KeyError] on the name column, the probe tool
    could not be started, or an [except] clause raised). *)
Definition process_row (env : Env) (st : Stage) (s : State) (idx : nat)
    (row : gmap string string) : option State :=
  filename ← recording_name (df s) row;
  if negb (PyStr.endswith filename ".wav") then Some s
  else if negb (path_exists env idx (input_path filename)) then
    Some (incr_not_found s)
  else if probes_duration st then
    stdout ← ffprobe env idx (input_path filename);
    let s0 := log [EvProbe (input_path filename)] s in
    if F64.gtb (duration_of env stdout) F64.thirty then Some (incr_deleted s0)
    else augment_row env st s0 idx filename
  else augment_row env st s idx filename.

Fixpoint iterrows (env : Env) (st : Stage) (s : State) (idx : nat)
    (rows : list (gmap string string)) : option State :=
  match rows with
  | [] => Some s
  | row :: rest =>
      s' ← process_row env st s idx row;
      iterrows env st s' (S idx) rest
  end.

(** The state when the loop starts: both path columns blank, counters zero. *)
Definition add_columns (st : Stage) (d : DataFrame) : DataFrame :=
  df_set_column (augmented_column st) "" (df_set_column "original_audio" "" d).

Definition init_state (st : Stage) (d : DataFrame) : State :=
  {| df := add_columns st d; success_count := 0; failed_count := 0;
     not_found_count := 0; deleted_count := 0; trace := [] |}.

(** The loop over a loaded manifest. *)
Definition run (env : Env) (st : Stage) (d : DataFrame) : option State :=
  iterrows env st (init_state st d) 0 (df_rows (add_columns st d)).

(** How a script ends. *)
Inductive Ending :=
| SystemExit (code : option Z)   (* [exit(code)] was called *)
| Traceback                      (* an exception reached the top level *)
| Completed (s : State).         (* the last statement was executed *)

(** The exit status of the interpreter. *)
Definition exit_status (e : Ending) : Z :=
  match e with
  | SystemExit None => 0
  | SystemExit (Some n) => n
  | Traceback => 1
  | Completed _ => 0
  end.

(** The manifest file written by the script, if any. *)
Definition written_manifest (st : Stage) (e : Ending) : option (string * DataFrame) :=
  match e with
  | Completed s => Some (output_csv st, df s)
  | _ => None
  end.

(** A whole augmentation script. *)
Definition script (env : Env) (st : Stage) : Ending :=
  if negb (makedirs_ok env (augmented_folder st)) then Traceback
  else if negb (manifest_exists env (csv_path st)) then SystemExit None
  else match read_csv env (csv_path st) with
       | None => Traceback
       | Some d =>
           match run env st d with
           | None => Traceback
           | Some s => if to_csv_ok env (output_csv st) then Completed s else Traceback
           end
       end.

(** ** The conversion script [convert_to_wav_filter30s.py] *)

Module Convert.

Definition input_folder : string := "webaudios".
Definition wav_folder : string := "wavaudios".
Definition threshold_sec : spec_float := F64.of_Z 30.

Record CState := {
  failed_files : list string;
  kept_count : nat;
  skipped_count : nat;
  ctrace : list Event
}.

Definition clog (evs : list Event) (s : CState) : CState :=
  {| failed_files := failed_files s; kept_count := kept_count s;
     skipped_count := skipped_count s; ctrace := ctrace s ++ evs |}.

Definition fail (filename : string) (s : CState) : CState :=
  {| failed_files := failed_files s ++ [filename]; kept_count := kept_count s;
     skipped_count := skipped_count s; ctrace := ctrace s |}.

Definition keep (s : CState) : CState :=
  {| failed_files := failed_files s; kept_count := S (kept_count s);
     skipped_count := skipped_count s; ctrace := ctrace s |}.

Definition skip (s : CState) : CState :=
  {| failed_files := failed_files s; kept_count := kept_count s;
     skipped_count := S (skipped_count s); ctrace := ctrace s |}.

Definition output_name (filename : string) : string :=
  PyStr.rsplit1_head filename "." +:+ ".wav".

(** One iteration of [for filename in os.listdir(input_folder)]; every
    exception is caught by the [except Exception] of the loop body. *)
Definition convert_file (env : Env) (s : CState) (k : nat) (filename : string)
    : CState :=
  if PyStr.endswith filename ".webm" then
    let inp := os_path_join input_folder filename in
    let wav_path := os_path_join wav_folder (output_name filename) in
    let s1 := clog [EvFfmpeg inp Pcm16kMono wav_path] s in
    if negb (ffmpeg_ok env k inp Pcm16kMono wav_path) then fail filename s1
    else
      match ffprobe env k wav_path with
      | None => fail filename s1
      | Some stdout =>
          let s2 := clog [EvProbe wav_path] s1 in
          match py_float env stdout with
          | None => fail filename s2
          | Some duration_sec =>
              if F64.leb duration_sec threshold_sec then
                let filtered_path := os_path_join filtered_folder (output_name filename) in
                let s3 := clog [EvCopy wav_path filtered_path] s2 in
                if copy_ok env k wav_path filtered_path then keep s3
                else fail filename s3
              else skip s2
          end
      end
  else s.

Fixpoint convert_all (env : Env) (s : CState) (k : nat) (names : list string)
    : CState :=
  match names with
  | [] => s
  | filename :: rest => convert_all env (convert_file env s k filename) (S k) rest
  end.

Definition init : CState :=
  {| failed_files := []; kept_count := 0; skipped_count := 0; ctrace := [] |}.

End Convert.

(** ** Vocabulary of the statements *)

(** The name with its final extension [ext] removed. *)
Fixpoint strip_suffix (s ext : string) : string :=
  if String.eqb s ext then EmptyString
  else match s with
       | EmptyString => EmptyString
       | String c rest => String c (strip_suffix rest ext)
       end.

(** The derived name as the specification words it: the transform suffix
    takes the place of the final '.wav' only, and the extension follows
    (the specification's own example maps a.wav to a_volume.wav). *)
Definition derived_name_spec (st : Stage) (filename : string) : string :=
  strip_suffix filename ".wav" +:+ suffix st +:+ ".wav".

(** The row gets past the duration check of its stage. *)
Definition passes_duration_filter (env : Env) (st : Stage) (idx : nat)
    (filename : string) : bool :=
  if probes_duration st then
    match ffprobe env idx (input_path filename) with
    | Some stdout => negb (F64.gtb (duration_of env stdout) F64.thirty)
    | None => false
    end
  else true.

(** The row reaches the [try] block of its stage. *)
Definition reaches_transform (env : Env) (st : Stage) (idx : nat)
    (filename : string) : bool :=
  PyStr.endswith filename ".wav"
  && path_exists env idx (input_path filename)
  && passes_duration_filter env st idx filename.

(** The events of the duration check of a stage. *)
Definition probe_events (st : Stage) (filename : string) : list Event :=
  if probes_duration st then [EvProbe (input_path filename)] else [].

(** The four counters of a state. *)
Definition counters (s : State) : nat * nat * nat * nat :=
  (success_count s, failed_count s, not_found_count s, deleted_count s).

Definition counter_sum (s : State) : nat :=
  (success_count s + failed_count s + not_found_count s + deleted_count s)%nat.

(** The row as [df.iterrows()] yields it: with both path columns blank. *)
Definition blank_row (st : Stage) (row : gmap string string) : gmap string string :=
  <[augmented_column st := ""]> (<["original_audio" := ""]> row).

(** The files an action writes as derived audio. *)
Definition derived_file (ev : Event) : option string :=
  match ev with
  | EvFfmpeg _ _ out => Some out
  | EvSfWrite out _ _ => Some out
  | _ => None
  end.

Definition derived_files (evs : list Event) : list string :=
  omap derived_file evs.

(** An iteration only writes the two path cells of its own row: [d'] is
    [d] up to the cells of row [idx] in the two path columns of the stage. *)
Definition frame (st : Stage) (idx : nat) (d d' : DataFrame) : Prop :=
  df_columns d' = df_columns d
  ∧ length (df_rows d') = length (df_rows d)
  ∧ (forall j, j ≠ idx -> df_rows d' !! j = df_rows d !! j)
  ∧ (forall j c, c ≠ "original_audio" -> c ≠ augmented_column st ->
       df_at j c d' = df_at j c d).

(** ** A small world to run the scripts in

    Four recordings are on disk: [a.wav] (10 s), [a.wav.wav] (10 s),
    [long.wav] (45 s) and [odd.wav], for which the probe prints [N/A];
    [gone.wav] is listed in the manifest only.  The transcoder fails on
    [odd.wav].  Decoded buffers hold the two samples -0.5 and -0.25. *)

Module Demo.

Definition on_disk : list string :=
  [ "filteredforwhisper/a.wav"; "filteredforwhisper/a.wav.wav";
    "filteredforwhisper/long.wav"; "filteredforwhisper/odd.wav" ].

Definition probe (path : string) : string :=
  if String.eqb path "filteredforwhisper/long.wav" then "45.0"
  else if String.eqb path "filteredforwhisper/odd.wav" then "N/A"
  else if String.eqb path "wavaudios/odd.wav" then "N/A"
  else "10.0".

Definition parse (text : string) : option spec_float :=
  if String.eqb text "45.0" then Some (F64.of_Z 45)
  else if String.eqb text "10.0" then Some (F64.of_Z 10)
  else None.

Definition minus_half : spec_float := F64.div (F64.of_Z (-1)) (F64.of_Z 2).
Definition minus_quarter : spec_float := F64.div (F64.of_Z (-1)) (F64.of_Z 4).
Definition three_quarters : spec_float := F64.div (F64.of_Z 3) (F64.of_Z 4).

Definition samples : list spec_float := [minus_half; minus_quarter].

Definition row (name : string) : gmap string string :=
  {[ "Recording Name" := name ]}.

Definition manifest : DataFrame :=
  {| df_columns := ["Recording Name"];
     df_rows := [row "a.wav"; row "gone.wav"; row "long.wav"; row "odd.wav";
                 row "notes.txt"; row "a.wav.wav"] |}.

Definition env : Env :=
  {| makedirs_ok := λ _, true;
     manifest_exists := λ _, true;
     read_csv := λ _, Some manifest;
     to_csv_ok := λ _, true;
     listdir := λ _, Some ["a.webm"; "odd.webm"];
     path_exists := λ _ p, bool_decide (p ∈ on_disk);
     ffprobe := λ _ p, Some (probe p);
     py_float := parse;
     ffmpeg_ok := λ _ inp _ _, negb (String.eqb inp "filteredforwhisper/odd.wav");
     stderr_decodes := λ _ _ _ _, true;
     copy_ok := λ _ _ _, true;
     random_cutoff := λ _, 4000%Z;
     random_gain_db := λ _, F64.of_Z 1;
     np_uniform := λ _, three_quarters;
     np_normal := λ _ _, F64.of_Z 1;
     sf_read := λ _ _, Some (samples, 16000%Z);
     sf_write_ok := λ _ _ _ _, true |}.

(** The same world with the manifest file missing. *)
Definition env_no_manifest : Env :=
  {| makedirs_ok := makedirs_ok env;
     manifest_exists := λ _, false;
     read_csv := λ _, None;
     to_csv_ok := to_csv_ok env;
     listdir := listdir env;
     path_exists := path_exists env;
     ffprobe := ffprobe env;
     py_float := py_float env;
     ffmpeg_ok := ffmpeg_ok env;
     stderr_decodes := stderr_decodes env;
     copy_ok := copy_ok env;
     random_cutoff := random_cutoff env;
     random_gain_db := random_gain_db env;
     np_uniform := np_uniform env;
     np_normal := np_normal env;
     sf_read := sf_read env;
     sf_write_ok := sf_write_ok env |}.

(** The state in which a stage leaves the loop in this world. *)
Definition final (st : Stage) : State :=
  default (init_state st manifest) (run env st manifest).

End Demo.

(** ** Vocabulary of the further properties *)

(** How an iteration of an augmentation loop ends. *)
Inductive Outcome := Ignored | NotFound | TooLong | Failed | Succeeded.

Global Instance Outcome_eq_dec : EqDecision Outcome.
Proof. solve_decision. Defined.

(** The name under which a row of a frame with the name column is
    processed: its cell, or 'nan' when the cell is missing. *)
Definition name_of (row : gmap string string) : string :=
  default "nan" (row !! "Recording Name").

(** The outcome of row [idx] of a frame that has the name column, read off
    the row and the world alone.  [None]: the iteration raises. *)
Definition outcome (env : Env) (st : Stage) (idx : nat)
    (row : gmap string string) : option Outcome :=
  let filename := name_of row in
  if negb (PyStr.endswith filename ".wav") then Some Ignored
  else if negb (path_exists env idx (input_path filename)) then Some NotFound
  else
    let tried := match (transform env st idx filename).2 with
                 | Some _ => Some Succeeded
                 | None => if handler_returns env st idx filename then Some Failed
                           else None
                 end in
    if probes_duration st then
      stdout ← ffprobe env idx (input_path filename);
      if F64.gtb (duration_of env stdout) F64.thirty then Some TooLong
      else tried
    else tried.

(** What an outcome does to the counters. *)
Definition tally (o : Outcome) (s : State) : nat * nat * nat * nat :=
  match o with
  | Ignored => counters s
  | Succeeded => (S (success_count s), failed_count s, not_found_count s, deleted_count s)
  | Failed => (success_count s, S (failed_count s), not_found_count s, deleted_count s)
  | NotFound => (success_count s, failed_count s, S (not_found_count s), deleted_count s)
  | TooLong => (success_count s, failed_count s, not_found_count s, S (deleted_count s))
  end.

(** The outcomes of consecutive rows, the first one having index [idx]. *)
Fixpoint outcomes (env : Env) (st : Stage) (idx : nat)
    (rows : list (gmap string string)) : list (option Outcome) :=
  match rows with
  | [] => []
  | row :: rest => outcome env st idx row :: outcomes env st (S idx) rest
  end.

(** How many rows ended with outcome [o]. *)
Definition occurrences (o : Outcome) (l : list (option Outcome)) : nat :=
  length (filter (λ x, x = Some o) l).

(** The path cells an outcome leaves in the row. *)
Definition original_cell (o : Outcome) (filename : string) : string :=
  match o with
  | Failed | Succeeded => input_path filename
  | _ => ""
  end.

Definition augmented_cell (st : Stage) (o : Outcome) (filename : string) : string :=
  match o with
  | Succeeded => output_path st filename
  | _ => ""
  end.

(** The recording name of the row ends in '.wav'. *)
Definition is_wav_row (row : gmap string string) : bool :=
  match row !! "Recording Name" with
  | Some filename => PyStr.endswith filename ".wav"
  | None => false
  end.

(** The cell of column [col] holds a path. *)
Definition populated (col : string) (row : gmap string string) : bool :=
  match row !! col with
  | Some v => negb (String.eqb v "")
  | None => false
  end.

(** The whole conversion script; [None]: an exception reached the top level. *)
Definition convert_main (env : Env) : option Convert.CState :=
  if negb (makedirs_ok env Convert.wav_folder) then None
  else if negb (makedirs_ok env filtered_folder) then None
  else
    names ← listdir env Convert.input_folder;
    Some (Convert.convert_all env Convert.init 0 names).

(** The files the conversion script has accounted for. *)
Definition processed (s : Convert.CState) : nat :=
  Convert.kept_count s + Convert.skipped_count s + length (Convert.failed_files s).

(** Worlds that differ from a given one in a single oracle. *)
Module World.

Definition with_py_float (f : string -> option spec_float) (e : Env) : Env :=
  {| makedirs_ok := makedirs_ok e; manifest_exists := manifest_exists e;
     read_csv := read_csv e; to_csv_ok := to_csv_ok e; listdir := listdir e;
     path_exists := path_exists e; ffprobe := ffprobe e; py_float := f;
     ffmpeg_ok := ffmpeg_ok e; stderr_decodes := stderr_decodes e;
     copy_ok := copy_ok e;
     random_cutoff := random_cutoff e; random_gain_db := random_gain_db e;
     np_uniform := np_uniform e; np_normal := np_normal e;
     sf_read := sf_read e; sf_write_ok := sf_write_ok e |}.

Definition with_sf_read (f : nat -> string -> option (list spec_float * Z))
    (e : Env) : Env :=
  {| makedirs_ok := makedirs_ok e; manifest_exists := manifest_exists e;
     read_csv := read_csv e; to_csv_ok := to_csv_ok e; listdir := listdir e;
     path_exists := path_exists e; ffprobe := ffprobe e; py_float := py_float e;
     ffmpeg_ok := ffmpeg_ok e; stderr_decodes := stderr_decodes e;
     copy_ok := copy_ok e;
     random_cutoff := random_cutoff e; random_gain_db := random_gain_db e;
     np_uniform := np_uniform e; np_normal := np_normal e;
     sf_read := f; sf_write_ok := sf_write_ok e |}.

Definition with_read_csv (f : string -> option DataFrame) (e : Env) : Env :=
  {| makedirs_ok := makedirs_ok e; manifest_exists := manifest_exists e;
     read_csv := f; to_csv_ok := to_csv_ok e; listdir := listdir e;
     path_exists := path_exists e; ffprobe := ffprobe e; py_float := py_float e;
     ffmpeg_ok := ffmpeg_ok e; stderr_decodes := stderr_decodes e;
     copy_ok := copy_ok e;
     random_cutoff := random_cutoff e; random_gain_db := random_gain_db e;
     np_uniform := np_uniform e; np_normal := np_normal e;
     sf_read := sf_read e; sf_write_ok := sf_write_ok e |}.

Definition with_stderr_decodes (f : nat -> string -> AudioFilter -> string -> bool)
    (e : Env) : Env :=
  {| makedirs_ok := makedirs_ok e; manifest_exists := manifest_exists e;
     read_csv := read_csv e; to_csv_ok := to_csv_ok e; listdir := listdir e;
     path_exists := path_exists e; ffprobe := ffprobe e; py_float := py_float e;
     ffmpeg_ok := ffmpeg_ok e; stderr_decodes := f;
     copy_ok := copy_ok e;
     random_cutoff := random_cutoff e; random_gain_db := random_gain_db e;
     np_uniform := np_uniform e; np_normal := np_normal e;
     sf_read := sf_read e; sf_write_ok := sf_write_ok e |}.

(** The probe prints [nan], which [float] accepts. *)
Definition nan_probe : Env := with_py_float (λ _, Some S754_nan) Demo.env.

(** Every recording decodes to an empty buffer. *)
Definition empty_audio : Env := with_sf_read (λ _ _, Some ([], 16000%Z)) Demo.env.

(** The probe prints [30.0] for every file. *)
Definition thirty_seconds : Env := with_py_float (λ _, Some (F64.of_Z 30)) Demo.env.

(** The probe prints [31.0] for every file. *)
Definition thirty_one_seconds : Env := with_py_float (λ _, Some (F64.of_Z 31)) Demo.env.

(** The transcoder leaves a standard error that does not decode. *)
Definition garbled_stderr : Env := with_stderr_decodes (λ _ _ _ _, false) Demo.env.

(** The manifest on disk has lost its name column. *)
Definition nameless_manifest : DataFrame :=
  {| df_columns := ["File"]; df_rows := [{[ "File" := "a.wav" ]}] |}.

Definition nameless : Env := with_read_csv (λ _, Some nameless_manifest) Demo.env.

(** The manifest on disk has the name column, with a blank cell in its
    second row. *)
Definition blank_name_manifest : DataFrame :=
  {| df_columns := ["Recording Name"; "Verse"];
     df_rows := [{[ "Recording Name" := "a.wav"; "Verse" := "1" ]};
                 {[ "Verse" := "2" ]}] |}.

Definition blank_name : Env := with_read_csv (λ _, Some blank_name_manifest) Demo.env.

(** The noise stage finds on disk the manifest the volume stage wrote. *)
Definition chained : Env := with_read_csv (λ _, Some (df (Demo.final Volume))) Demo.env.

Definition chained_final : State :=
  default (init_state Noise (df (Demo.final Volume)))
          (run chained Noise (df (Demo.final Volume))).

End World.

(** * Proofs *)

(** ** Facts about the string methods *)

Section StringFacts.

Lemma startswith_wav s :
  PyStr.startswith s ".wav" = true -> exists t, s = ".wav" +:+ t.
Proof.
  destruct s as [|a [|b [|c [|d t]]]]; simpl; try done;
    repeat (case_match; try done).
  intros _.
  repeat match goal with H : Ascii.eqb _ _ = true |- _ =>
    apply Ascii.eqb_eq in H; subst end.
  by exists t.
Qed.

Lemma endswith_cons c s suf :
  PyStr.endswith (String c s) suf = String.eqb (String c s) suf || PyStr.endswith s suf.
Proof. cbn [PyStr.endswith]. by destruct (String.eqb (String c s) suf). Qed.

(** A name that ends in '.wav' holds at least one occurrence of it. *)
Lemma count_endswith_pos s :
  PyStr.endswith s ".wav" = true -> 1 <= PyStr.count s ".wav".
Proof.
  unfold PyStr.count. induction s as [|c s IH]; [done|].
  rewrite endswith_cons. intros H.
  cbn [PyStr.count_go]. destruct (PyStr.startswith (String c s) ".wav") eqn:Hp; [lia|].
  apply orb_true_iff in H as [H|H].
  - apply String.eqb_eq in H. rewrite H in Hp. done.
  - by apply IH.
Qed.

Lemma replace_wav_step new t :
  PyStr.replace (".wav" +:+ t) ".wav" new = new +:+ PyStr.replace t ".wav" new.
Proof.
  unfold PyStr.replace.
  change (".wav" +:+ t) with (String "." (String "w" (String "a" (String "v" t)))).
  reflexivity.
Qed.

Lemma count_wav_step t :
  PyStr.count (".wav" +:+ t) ".wav" = S (PyStr.count t ".wav").
Proof. reflexivity. Qed.

Lemma app_empty_r (s : string) : s +:+ "" = s.
Proof. induction s; simpl; unfold String.app in *; simpl; by f_equal. Qed.

(** When '.wav' occurs once, as the extension, the replacement inserts the
    suffix before the extension. *)
Lemma replace_single_occurrence new s :
  PyStr.endswith s ".wav" = true ->
  PyStr.count s ".wav" = 1 ->
  PyStr.replace s ".wav" new = strip_suffix s ".wav" +:+ new.
Proof.
  induction s as [|c s IH]; [done|].
  intros He Hc.
  destruct (PyStr.startswith (String c s) ".wav") eqn:Hp.
  - apply startswith_wav in Hp as [t Ht]. rewrite Ht in *. clear Ht.
    rewrite count_wav_step in Hc. rewrite replace_wav_step.
    destruct t as [|d t]; [by rewrite app_empty_r|].
    exfalso.
    assert (PyStr.endswith (String d t) ".wav" = true) as Ht.
    { revert He. simpl. done. }
    apply count_endswith_pos in Ht. lia.
  - rewrite endswith_cons in He. apply orb_true_iff in He as [He|He].
    { apply String.eqb_eq in He. rewrite He in Hp. done. }
    unfold PyStr.replace, PyStr.count in *. cbn [PyStr.replace_go PyStr.count_go] in *.
    rewrite Hp in *. 
    assert (String.eqb (String c s) ".wav" = false) as Hne.
    { destruct (String.eqb_spec (String c s) ".wav") as [E|]; [|done]. rewrite E in Hp; done. }
    cbn [strip_suffix]. rewrite Hne.
    change (String c (strip_suffix s ".wav") +:+ new)
      with (String c (strip_suffix s ".wav" +:+ new)).
    f_equal. by apply IH.
Qed.
End StringFacts.

(** ** Facts about the order of binary64 numbers *)

Ltac order_cases :=
  repeat match goal with
  | |- context [Z.compare ?a ?b] => destruct (Z.compare_spec a b); simpl
  | H : context [Z.compare ?a ?b] |- _ => destruct (Z.compare_spec a b); simpl in H
  | |- context [Pos.compare_cont Eq ?a ?b] => change (Pos.compare_cont Eq a b) with (Pos.compare a b); destruct (Pos.compare_spec a b); simpl
  | H : context [Pos.compare_cont Eq ?a ?b] |- _ => change (Pos.compare_cont Eq a b) with (Pos.compare a b) in H; destruct (Pos.compare_spec a b); simpl in H
  end.

Lemma leb_trans x y z : F64.leb x y = true -> F64.leb y z = true -> F64.leb x z = true.
Proof.
  unfold F64.leb, SFleb, SFcompare.
  destruct x as [[]|[]| |[] mx ex], y as [[]|[]| |[] my ey], z as [[]|[]| |[] mz ez];
    simpl; try done; order_cases; try done; try lia.
Qed.

Lemma leb_refl x : F64.is_nan x = false -> F64.leb x x = true.
Proof.
  unfold F64.leb, SFleb, SFcompare. destruct x as [[]|[]| |[] m e]; simpl; try done;
  rewrite Z.compare_refl; change (Pos.compare_cont Eq m m) with (Pos.compare m m);
  rewrite Pos.compare_refl; done.
Qed.

Lemma leb_total x y : F64.is_nan x = false -> F64.is_nan y = false ->
  F64.leb x y = false -> F64.leb y x = true.
Proof.
  unfold F64.leb, SFleb, SFcompare.
  destruct x as [[]|[]| |[] mx ex], y as [[]|[]| |[] my ey];
    simpl; try done; order_cases; try done; try lia.
Qed.

Lemma leb_negb_ltb x y :
  F64.is_nan x = false -> F64.is_nan y = false ->
  F64.leb x y = negb (F64.ltb y x).
Proof.
  unfold F64.leb, F64.ltb, SFleb, SFltb, SFcompare.
  destruct x as [[]|[]| |[] mx ex], y as [[]|[]| |[] my ey];
    simpl; try done; order_cases; try done; try lia.
Qed.

(** ** Facts about the manifest operations *)

Section DataFrameFacts.

Implicit Types (d : DataFrame) (row : gmap string string).

Lemma df_at_set_lookup_eq idx col v d :
  df_rows (df_at_set idx col v d) !! idx = (λ r, <[col := v]> r) <$> df_rows d !! idx.
Proof. apply list_lookup_alter_eq. Qed.

Lemma df_at_set_lookup_ne idx j col v d :
  idx ≠ j -> df_rows (df_at_set idx col v d) !! j = df_rows d !! j.
Proof. intros. by apply list_lookup_alter_ne. Qed.

Lemma df_at_set_length idx col v d :
  length (df_rows (df_at_set idx col v d)) = length (df_rows d).
Proof. apply length_alter. Qed.

Lemma df_at_df_at_set_eq idx col v d :
  idx < length (df_rows d) -> df_at idx col (df_at_set idx col v d) = Some v.
Proof.
  intros Hlt. unfold df_at. rewrite df_at_set_lookup_eq.
  destruct (lookup_lt_is_Some_2 _ _ Hlt) as [r ->]. simpl. apply lookup_insert_eq.
Qed.

Lemma df_at_df_at_set_other idx j col c v d :
  c ≠ col -> df_at j c (df_at_set idx col v d) = df_at j c d.
Proof.
  intros Hc. unfold df_at. destruct (decide (idx = j)) as [->|Hne].
  - rewrite df_at_set_lookup_eq. destruct (df_rows d !! j); simpl; [|done].
    by apply lookup_insert_ne.
  - by rewrite df_at_set_lookup_ne.
Qed.

Lemma columns_distinct st : augmented_column st ≠ "original_audio".
Proof. by destruct st. Qed.

Lemma key_not_original : "Recording Name" ≠ "original_audio".
Proof. done. Qed.

Lemma key_not_augmented st : "Recording Name" ≠ augmented_column st.
Proof. by destruct st. Qed.

Lemma blank_row_original st row : blank_row st row !! "original_audio" = Some "".
Proof.
  unfold blank_row. rewrite lookup_insert_ne by apply columns_distinct.
  apply lookup_insert_eq.
Qed.

Lemma blank_row_augmented st row : blank_row st row !! augmented_column st = Some "".
Proof. apply lookup_insert_eq. Qed.

Lemma blank_row_other st row c :
  c ≠ "original_audio" -> c ≠ augmented_column st -> blank_row st row !! c = row !! c.
Proof. intros ??. unfold blank_row. by rewrite !lookup_insert_ne. Qed.

Lemma add_columns_rows st d : df_rows (add_columns st d) = blank_row st <$> df_rows d.
Proof. unfold add_columns, df_set_column. simpl. by rewrite <- list_fmap_compose. Qed.

Lemma add_columns_prefix st d : df_columns d `prefix_of` df_columns (add_columns st d).
Proof.
  unfold add_columns, df_set_column. simpl.
  repeat case_decide; try done.
  - by apply prefix_app_r.
  - by apply prefix_app_r.
  - rewrite <- app_assoc. by apply prefix_app_r.
Qed.

Lemma add_columns_elem st d c :
  c ∈ df_columns (add_columns st d) ->
  c ∈ df_columns d ∨ c = "original_audio" ∨ c = augmented_column st.
Proof.
  unfold add_columns, df_set_column. simpl.
  destruct (decide ("original_audio" ∈ df_columns d)); simpl;
    case_decide; rewrite ?elem_of_app, ?list_elem_of_singleton; tauto.
Qed.

End DataFrameFacts.

(** ** The loop body, case by case *)

Section LoopFacts.

Variables (env : Env) (st : Stage).

Implicit Types (s : State) (row : gmap string string).

Lemma log_nil s : log [] s = s.
Proof. destruct s. unfold log. simpl. by rewrite app_nil_r. Qed.

Lemma recording_name_present d row filename :
  row !! "Recording Name" = Some filename -> recording_name d row = Some filename.
Proof. intros H. unfold recording_name. by rewrite H. Qed.

Lemma recording_name_name_of d row filename :
  recording_name d row = Some filename -> filename = name_of row.
Proof.
  unfold recording_name, name_of. destruct (row !! "Recording Name"); simpl.
  - by intros [= ->].
  - case_decide; [by intros [= <-]|done].
Qed.

Lemma recording_name_columns d d' row :
  df_columns d' = df_columns d -> recording_name d' row = recording_name d row.
Proof. intros H. unfold recording_name. by rewrite H. Qed.

(** The four ways an iteration can end normally. *)
Lemma process_row_cases s idx row s' :
  process_row env st s idx row = Some s' ->
  exists filename, recording_name (df s) row = Some filename ∧
    ( (PyStr.endswith filename ".wav" = false ∧ s' = s)
    ∨ (PyStr.endswith filename ".wav" = true
        ∧ path_exists env idx (input_path filename) = false
        ∧ s' = incr_not_found s)
    ∨ (PyStr.endswith filename ".wav" = true
        ∧ path_exists env idx (input_path filename) = true
        ∧ passes_duration_filter env st idx filename = false
        ∧ s' = incr_deleted (log [EvProbe (input_path filename)] s))
    ∨ (reaches_transform env st idx filename = true
        ∧ augment_row env st (log (probe_events st filename) s) idx filename
          = Some s') ).
Proof.
  unfold process_row, reaches_transform, passes_duration_filter, probe_events.
  destruct (recording_name (df s) row) as [filename|]; [|done]. simpl.
  intros H. exists filename. split; [done|].
  destruct (PyStr.endswith filename ".wav"); simpl in *;
    [|left; split; [done|congruence]].
  destruct (path_exists env idx (input_path filename)); simpl in *;
    [|right; left; repeat split; congruence].
  destruct (probes_duration st).
  - destruct (ffprobe env idx (input_path filename)) as [stdout|]; [|done]. simpl in *.
    destruct (F64.gtb (duration_of env stdout) F64.thirty); simpl.
    + right; right; left. repeat split; congruence.
    + by do 3 right.
  - rewrite log_nil. by do 3 right.
Qed.

(** What the rest of the body does to the state when it ends normally. *)
Lemma augment_row_cases s idx filename s' :
  augment_row env st s idx filename = Some s' ->
  let s1 := set_df (df_at_set idx "original_audio" (input_path filename)) s in
  (exists evs out, transform env st idx filename = (evs, Some out)
     ∧ s' = incr_success (set_df (df_at_set idx (augmented_column st) out) (log evs s1)))
  ∨ (exists evs, transform env st idx filename = (evs, None)
     ∧ handler_returns env st idx filename = true
     ∧ s' = incr_failed (log evs s1)).
Proof.
  unfold augment_row. destruct (transform env st idx filename) as [evs [out|]].
  - intros [= <-]. left. by exists evs, out.
  - destruct (handler_returns env st idx filename); [|done].
    intros [= <-]. right. by exists evs.
Qed.

(** It ends normally unless the transform fails and the handler raises. *)
Lemma augment_row_returns s idx filename :
  ((transform env st idx filename).2 = None ->
   handler_returns env st idx filename = true) ->
  is_Some (augment_row env st s idx filename).
Proof.
  unfold augment_row. destruct (transform env st idx filename) as [evs [out|]]; simpl.
  - by eexists.
  - intros H. rewrite H by done. by eexists.
Qed.

Lemma augment_row_raises s idx filename :
  (transform env st idx filename).2 = None ->
  handler_returns env st idx filename = false ->
  augment_row env st s idx filename = None.
Proof.
  unfold augment_row. destruct (transform env st idx filename) as [evs [out|]]; simpl;
    [done|]. by intros _ ->.
Qed.

Lemma transform_out idx filename evs out :
  transform env st idx filename = (evs, Some out) -> out = output_path st filename.
Proof.
  unfold transform. destruct st; repeat case_match; intros; by simplify_eq.
Qed.

Lemma frame_refl idx d : frame st idx d d.
Proof. by repeat split. Qed.

Lemma frame_original idx v d : frame st idx d (df_at_set idx "original_audio" v d).
Proof.
  repeat split.
  - apply df_at_set_length.
  - intros j Hj. by apply df_at_set_lookup_ne.
  - intros j c Hc _. by apply df_at_df_at_set_other.
Qed.

Lemma frame_augmented idx v d : frame st idx d (df_at_set idx (augmented_column st) v d).
Proof.
  repeat split.
  - apply df_at_set_length.
  - intros j Hj. by apply df_at_set_lookup_ne.
  - intros j c _ Hc. by apply df_at_df_at_set_other.
Qed.

Lemma frame_trans idx d1 d2 d3 : frame st idx d1 d2 -> frame st idx d2 d3 -> frame st idx d1 d3.
Proof.
  intros (Ha & Hb & Hc & Hd) (Ha' & Hb' & Hc' & Hd'). repeat split.
  - congruence.
  - congruence.
  - intros j Hj. rewrite Hc' by done. by apply Hc.
  - intros j c ??. rewrite Hd' by done. by apply Hd.
Qed.

Lemma augment_row_frame s idx filename s' :
  augment_row env st s idx filename = Some s' -> frame st idx (df s) (df s').
Proof.
  intros H.
  destruct (augment_row_cases s idx filename s' H)
    as [(evs & out & _ & ->)|(evs & _ & _ & ->)]; simpl.
  - eapply frame_trans; [apply frame_original|apply frame_augmented].
  - apply frame_original.
Qed.

Lemma process_row_frame s idx row s' :
  process_row env st s idx row = Some s' -> frame st idx (df s) (df s').
Proof.
  intros H. apply process_row_cases in H as (filename & _ & [H|[H|[H|H]]]).
  - destruct H as [_ ->]. apply frame_refl.
  - destruct H as (_ & _ & ->). apply frame_refl.
  - destruct H as (_ & _ & _ & ->). apply frame_refl.
  - destruct H as (_ & H). by apply augment_row_frame in H.
Qed.

(** The loop: rows outside the range it walks are untouched. *)
Lemma iterrows_frame rows : forall s k s',
  iterrows env st s k rows = Some s' ->
  df_columns (df s') = df_columns (df s)
  ∧ length (df_rows (df s')) = length (df_rows (df s))
  ∧ (forall j, j < k ∨ k + length rows <= j -> df_rows (df s') !! j = df_rows (df s) !! j)
  ∧ (forall j c, c ≠ "original_audio" -> c ≠ augmented_column st ->
       df_at j c (df s') = df_at j c (df s)).
Proof.
  induction rows as [|row rows IH]; intros s k s' H; simpl in H.
  - by simplify_eq.
  - destruct (process_row env st s k row) as [s1|] eqn:Hrow; [|done]. simpl in H.
    apply process_row_frame in Hrow as (Ha & Hb & Hc & Hd).
    apply IH in H as (Ha' & Hb' & Hc' & Hd'). repeat split.
    + congruence.
    + congruence.
    + intros j Hj. simpl in Hj. rewrite Hc' by lia. apply Hc. lia.
    + intros j c ??. rewrite Hd' by done. by apply Hd.
Qed.

Lemma iterrows_app rows1 : forall rows2 s k,
  iterrows env st s k (rows1 ++ rows2)
  = s1 ← iterrows env st s k rows1; iterrows env st s1 (k + length rows1) rows2.
Proof.
  induction rows1 as [|row rows1 IH]; intros rows2 s k; simpl.
  - by rewrite Nat.add_0_r.
  - destruct (process_row env st s k row) as [s1|]; simpl; [|done].
    rewrite IH. by replace (S k + length rows1) with (k + S (length rows1)) by lia.
Qed.

(** The iteration of row [i], isolated inside a whole run: the loop reaches
    it with the row still blank, and what it leaves in the row is final. *)
Lemma run_row d s' i row :
  run env st d = Some s' ->
  df_rows d !! i = Some row ->
  exists s1 s2,
    process_row env st s1 i (blank_row st row) = Some s2
    ∧ df_columns (df s1) = df_columns (add_columns st d)
    ∧ df_rows (df s1) !! i = Some (blank_row st row)
    ∧ df_rows (df s') !! i = df_rows (df s2) !! i.
Proof.
  unfold run. intros Hrun Hrow.
  set (s0 := init_state st d) in *.
  assert (df_rows (df s0) = df_rows (add_columns st d)) as Hs0 by done.
  assert (df_columns (df s0) = df_columns (add_columns st d)) as Hc0 by done.
  assert (df_rows (add_columns st d) !! i = Some (blank_row st row)) as Hb.
  { by rewrite add_columns_rows, list_lookup_fmap, Hrow. }
  revert Hrun Hs0 Hc0 Hb. generalize (df_rows (add_columns st d)) as rows.
  generalize (df_columns (add_columns st d)) as cols.
  generalize s0 as s. clear s0. intros s cols rows Hrun Hs Hc Hb.
  pose proof (take_drop_middle _ _ _ Hb) as Hsplit.
  pose proof (lookup_lt_Some _ _ _ Hb) as Hlt.
  rewrite <- Hsplit, iterrows_app in Hrun.
  destruct (iterrows env st s 0 (take i rows)) as [s1|] eqn:H1; [|done].
  cbn [mbind option_bind] in Hrun.
  rewrite length_take, Nat.min_l, Nat.add_0_l in Hrun by lia.
  cbn [iterrows] in Hrun.
  destruct (process_row env st s1 i (blank_row st row)) as [s2|] eqn:H2; [|done].
  cbn [mbind option_bind] in Hrun. exists s1, s2. split; [done|].
  apply iterrows_frame in H1 as (H0 & _ & H1 & _).
  apply iterrows_frame in Hrun as (_ & _ & H3 & _).
  split; [congruence|]. split.
  - rewrite H1, Hs; [done|]. right. rewrite length_take. lia.
  - apply H3. left. lia.
Qed.

End LoopFacts.

(** ** Counters, log and cells after one iteration *)

Section RowFacts.

Variables (env : Env) (st : Stage).

Implicit Types (s : State) (row : gmap string string).

Lemma augment_row_trace s idx filename s' :
  augment_row env st s idx filename = Some s' ->
  trace s' = trace s ++ (transform env st idx filename).1.
Proof.
  intros H. destruct (augment_row_cases env st s idx filename s' H)
    as [(evs & out & Ht & ->)|(evs & Ht & _ & ->)]; by rewrite Ht.
Qed.

Lemma augment_row_counters s idx filename s' :
  augment_row env st s idx filename = Some s' ->
  counters s'
  = match (transform env st idx filename).2 with
    | Some _ => (S (success_count s), failed_count s, not_found_count s, deleted_count s)
    | None => (success_count s, S (failed_count s), not_found_count s, deleted_count s)
    end.
Proof.
  intros H. destruct (augment_row_cases env st s idx filename s' H)
    as [(evs & out & Ht & ->)|(evs & Ht & _ & ->)]; by rewrite Ht.
Qed.

(** The cells of the processed row after the [try] statement. *)
Lemma augment_row_cells s idx filename s' :
  augment_row env st s idx filename = Some s' ->
  idx < length (df_rows (df s)) ->
  df_at idx (augmented_column st) (df s) = Some "" ->
  df_at idx "original_audio" (df s') = Some (input_path filename)
  ∧ df_at idx (augmented_column st) (df s')
    = Some (default "" ((transform env st idx filename).2)).
Proof.
  intros H Hlt Hblank.
  destruct (augment_row_cases env st s idx filename s' H)
    as [(evs & out & Ht & ->)|(evs & Ht & _ & ->)]; rewrite Ht; simpl.
  - split.
    + rewrite df_at_df_at_set_other by (symmetry; apply columns_distinct).
      by apply df_at_df_at_set_eq.
    + apply df_at_df_at_set_eq. by rewrite df_at_set_length.
  - split.
    + by apply df_at_df_at_set_eq.
    + rewrite df_at_df_at_set_other by apply columns_distinct. done.
Qed.

Lemma process_row_counters s idx row s' :
  process_row env st s idx row = Some s' ->
  counters s' = counters s
  ∨ counters s' = (S (success_count s), failed_count s, not_found_count s, deleted_count s)
  ∨ counters s' = (success_count s, S (failed_count s), not_found_count s, deleted_count s)
  ∨ counters s' = (success_count s, failed_count s, S (not_found_count s), deleted_count s)
  ∨ counters s' = (success_count s, failed_count s, not_found_count s, S (deleted_count s)).
Proof.
  intros H. apply process_row_cases in H as (filename & _ & [H|[H|[H|H]]]).
  - destruct H as [_ ->]. by left.
  - destruct H as (_ & _ & ->). by do 3 right; left.
  - destruct H as (_ & _ & _ & ->). by do 4 right.
  - destruct H as (_ & H). rewrite (augment_row_counters _ _ _ _ H).
    destruct (transform env st idx filename).2; [right; left|right; right; left]; done.
Qed.

Lemma process_row_counter_sum s idx row s' :
  process_row env st s idx row = Some s' -> counter_sum s' <= S (counter_sum s).
Proof.
  intros H. apply process_row_counters in H. unfold counters, counter_sum in *.
  destruct H as [H|[H|[H|[H|H]]]]; injection H as -> -> -> ->; lia.
Qed.

Lemma iterrows_counter_sum rows : forall s k s',
  iterrows env st s k rows = Some s' -> counter_sum s' <= counter_sum s + length rows.
Proof.
  induction rows as [|row rows IH]; intros s k s' H; simpl in H.
  - injection H as <-. lia.
  - destruct (process_row env st s k row) as [s1|] eqn:Hrow; [|done].
    cbn [mbind option_bind] in H. apply IH in H.
    apply process_row_counter_sum in Hrow. simpl. lia.
Qed.

Lemma process_row_not_wav s idx row filename :
  row !! "Recording Name" = Some filename ->
  PyStr.endswith filename ".wav" = false ->
  process_row env st s idx row = Some s.
Proof.
  intros Hk He. unfold process_row.
  rewrite (recording_name_present _ _ _ Hk). simpl. by rewrite He.
Qed.

Lemma process_row_not_found s idx row filename :
  row !! "Recording Name" = Some filename ->
  PyStr.endswith filename ".wav" = true ->
  path_exists env idx (input_path filename) = false ->
  process_row env st s idx row = Some (incr_not_found s).
Proof.
  intros Hk He Hx. unfold process_row.
  rewrite (recording_name_present _ _ _ Hk). simpl. by rewrite He, Hx.
Qed.

Lemma process_row_too_long s idx row filename stdout :
  probes_duration st = true ->
  row !! "Recording Name" = Some filename ->
  PyStr.endswith filename ".wav" = true ->
  path_exists env idx (input_path filename) = true ->
  ffprobe env idx (input_path filename) = Some stdout ->
  F64.gtb (duration_of env stdout) F64.thirty = true ->
  process_row env st s idx row
  = Some (incr_deleted (log [EvProbe (input_path filename)] s)).
Proof.
  intros Hp Hk He Hx Hs Hd. unfold process_row.
  rewrite (recording_name_present _ _ _ Hk). simpl.
  by rewrite He, Hx, Hp, Hs; simpl; rewrite Hd.
Qed.

Lemma process_row_reaches s idx row filename :
  row !! "Recording Name" = Some filename ->
  reaches_transform env st idx filename = true ->
  process_row env st s idx row
  = augment_row env st (log (probe_events st filename) s) idx filename.
Proof.
  intros Hk Hr. unfold reaches_transform, passes_duration_filter in Hr.
  apply andb_true_iff in Hr as [Hr Hd]. apply andb_true_iff in Hr as [He Hx].
  unfold process_row, probe_events.
  rewrite (recording_name_present _ _ _ Hk). simpl. rewrite He, Hx. simpl.
  destruct (probes_duration st).
  - destruct (ffprobe env idx (input_path filename)) as [stdout|]; [|done]. simpl.
    apply negb_true_iff in Hd. by rewrite Hd.
  - by rewrite log_nil.
Qed.

Lemma blank_row_key row :
  blank_row st row !! "Recording Name" = row !! "Recording Name".
Proof. apply blank_row_other; [apply key_not_original|apply key_not_augmented]. Qed.

Lemma input_path_not_empty filename : input_path filename ≠ "".
Proof.
  unfold input_path, os_path_join.
  destruct (PyStr.startswith filename "/") eqn:E.
  - by destruct filename.
  - done.
Qed.

End RowFacts.

(** ** Facts about the noise transform *)

Section NoiseFacts.

Implicit Types (x y lo hi : spec_float) (data : list spec_float).

Lemma ltb_leb x y : F64.ltb x y = true -> F64.leb x y = true.
Proof. unfold F64.ltb, F64.leb, SFltb, SFleb. by destruct (SFcompare x y) as [[]|]. Qed.

Lemma leb_not_nan x y :
  F64.leb x y = true -> F64.is_nan x = false ∧ F64.is_nan y = false.
Proof. unfold F64.leb, SFleb. by destruct x as [[]|[]| |[] ? ?], y as [[]|[]| |[] ? ?]. Qed.

Lemma clip_nan_iff x lo hi :
  F64.is_nan hi = false ->
  F64.is_nan lo = false ->
  F64.is_nan (Np.clip x lo hi) = F64.is_nan x.
Proof.
  intros Hhi Hlo. unfold Np.clip, Np.clip_min, Np.clip_max.
  destruct (F64.is_nan x) eqn:Hx; [by rewrite Hx|].
  destruct (F64.gtb x lo).
  - rewrite Hx. by destruct (F64.ltb x hi).
  - rewrite Hlo. by destruct (F64.ltb lo hi).
Qed.

Lemma clip_range x lo hi :
  F64.leb lo hi = true ->
  F64.is_nan x = false ->
  F64.leb lo (Np.clip x lo hi) = true ∧ F64.leb (Np.clip x lo hi) hi = true.
Proof.
  intros Hle Hx. destruct (leb_not_nan _ _ Hle) as [Hlo Hhi].
  unfold Np.clip, Np.clip_min, Np.clip_max. rewrite Hx.
  destruct (F64.gtb x lo) eqn:Hg.
  - rewrite Hx. destruct (F64.ltb x hi) eqn:Hl.
    + split; by apply ltb_leb.
    + split; [done|by apply leb_refl].
  - rewrite Hlo. destruct (F64.ltb lo hi) eqn:Hl.
    + split; [by apply leb_refl|done].
    + split; [done|by apply leb_refl].
Qed.

Lemma maximum_cases x y :
  F64.is_nan x = false -> F64.is_nan y = false ->
  (Np.maximum x y = x ∧ F64.leb y x = true) ∨ (Np.maximum x y = y ∧ F64.leb x y = true).
Proof.
  intros Hx Hy. unfold Np.maximum, F64.gtb. fold (F64.ltb y x). rewrite Hx.
  destruct (F64.ltb y x) eqn:E; simpl.
  - left. split; [done|]. by apply ltb_leb.
  - right. split; [done|]. rewrite leb_negb_ltb by done. by rewrite E.
Qed.

(** The reduction returns one of the samples, and none is larger. *)
Lemma foldl_maximum data : forall x,
  F64.is_nan x = false ->
  Forall (λ y, F64.is_nan y = false) data ->
  foldl Np.maximum x data ∈ x :: data
  ∧ F64.leb x (foldl Np.maximum x data) = true
  ∧ Forall (λ y, F64.leb y (foldl Np.maximum x data) = true) data.
Proof.
  induction data as [|y data IH]; intros x Hx Hall; simpl.
  - split; [by left|]. split; [by apply leb_refl|done].
  - apply Forall_cons in Hall as [Hy Hall].
    destruct (maximum_cases x y Hx Hy) as [[-> Hle]|[-> Hle]].
    + destruct (IH x Hx Hall) as (Hin & Hxm & Hrest).
      split; [|split; [done|]].
      { apply elem_of_cons in Hin as [->|Hin]; [left|do 2 right]; done. }
      apply Forall_cons. split; [|done]. by eapply leb_trans.
    + destruct (IH y Hy Hall) as (Hin & Hym & Hrest).
      split; [by right|]. split; [by eapply leb_trans|].
      by apply Forall_cons.
Qed.

Lemma amax_is_maximum data :
  data ≠ [] ->
  Forall (λ y, F64.is_nan y = false) data ->
  exists m, Np.amax data = Some m ∧ m ∈ data
    ∧ Forall (λ y, F64.leb y m = true) data.
Proof.
  destruct data as [|x data]; [done|]. intros _ Hall.
  apply Forall_cons in Hall as [Hx Hall].
  destruct (foldl_maximum data x Hx Hall) as (Hin & Hxm & Hrest).
  exists (foldl Np.maximum x data). split; [done|]. split; [done|].
  by apply Forall_cons.
Qed.

Lemma add_noise_lookup amp normal data k :
  NoiseStage.add_noise amp normal data !! k
  = (λ x, F64.add x (F64.mul amp (normal k))) <$> data !! k.
Proof. unfold NoiseStage.add_noise. apply list_lookup_imap. Qed.

End NoiseFacts.


(** * The claims *)

(** ** The noise transform (C1, C7) *)

(** What [np.amax] contributes, for a non-empty buffer without NaN samples:
    the amplitude is 0.02 x U x m, where m is the largest sample taken with
    its sign, one of the samples, none being larger. *)
Lemma noise_amp_scales_signed_maximum (u : spec_float) (data : list spec_float) :
  data ≠ [] ->
  Forall (λ y, F64.is_nan y = false) data ->
  exists m, m ∈ data
    ∧ Forall (λ y, F64.leb y m = true) data
    ∧ NoiseStage.noise_amp u data = Some (F64.mul (F64.mul F64.c0_02 u) m).
Proof.
  intros Hne Hall. destruct (amax_is_maximum data Hne Hall) as (m & Hm & Hin & Hle).
  exists m. split; [done|]. split; [done|].
  unfold NoiseStage.noise_amp. by rewrite Hm.
Qed.

(** C1 (the code at the failing input).  The recording a.wav decodes to the
    samples -0.5 and -0.25; the uniform draw is 0.75 and the normal draws
    are 1.  The script multiplies by [np.amax(data)] = -0.25, not by the peak
    absolute sample 0.5: its amplitude is 0.02 x 0.75 x (-0.25) = -0.00375,
    negative, where 0.02 x U x peak is 0.0075.  That amplitude is the one
    applied: the buffer handed to [sf.write] is the clipped
    data + (-0.00375) x draw, and it differs from the buffer that the peak
    absolute sample gives. *)
Theorem noise_amplitude_applied_is_signed :
  sf_read Demo.env 0 (input_path "a.wav") = Some (Demo.samples, 16000%Z)
  ∧ Np.amax Demo.samples = Some Demo.minus_quarter
  ∧ NoiseStage.peak_absolute_sample Demo.samples = Some (F64.abs Demo.minus_half)
  ∧ NoiseStage.noise_amp (np_uniform Demo.env 0) Demo.samples
    = Some (S754_finite true 8646911284551352 (-61))
  ∧ NoiseStage.noise_amp_spec (np_uniform Demo.env 0) Demo.samples
    = Some (S754_finite false 8646911284551352 (-60))
  ∧ transform Demo.env Noise 0 "a.wav"
    = ([EvSfRead "filteredforwhisper/a.wav";
        EvSfWrite "augmented_noise/a_noise.wav"
          (NoiseStage.clip_all
             (NoiseStage.add_noise (S754_finite true 8646911284551352 (-61))
                (np_normal Demo.env 0) Demo.samples))
          16000%Z],
       Some "augmented_noise/a_noise.wav")
  ∧ NoiseStage.clip_all
      (NoiseStage.add_noise (S754_finite true 8646911284551352 (-61))
         (np_normal Demo.env 0) Demo.samples)
    ≠ NoiseStage.clip_all
        (NoiseStage.add_noise (S754_finite false 8646911284551352 (-60))
           (np_normal Demo.env 0) Demo.samples).
Proof.
  repeat split; try (vm_compute; reflexivity).
  intros H. vm_compute in H. discriminate.
Qed.

(** C7 (as amended).  Every sample of the buffer handed to [sf.write] is the
    clipped noisy sample; it is a NaN exactly when the noisy sample is one,
    and otherwise it lies within [-1.0, 1.0]. *)
Theorem noisy_data_clipped_unless_nan (u : spec_float) (normal : nat -> spec_float)
    (data out : list spec_float) :
  NoiseStage.noisy_data u normal data = Some out ->
  length out = length data
  ∧ forall k y, out !! k = Some y ->
      exists amp x, NoiseStage.noise_amp u data = Some amp ∧ data !! k = Some x
        ∧ F64.is_nan y = F64.is_nan (F64.add x (F64.mul amp (normal k)))
        ∧ (F64.is_nan y = false ->
            F64.leb F64.minus_one y = true ∧ F64.leb y F64.one = true).
Proof.
  unfold NoiseStage.noisy_data.
  destruct (NoiseStage.noise_amp u data) as [amp|]; [|done].
  cbn [mbind option_bind]. intros [= <-]. split.
  - unfold NoiseStage.clip_all, NoiseStage.add_noise. by rewrite length_fmap, length_imap.
  - intros k y Hk. unfold NoiseStage.clip_all in Hk.
    rewrite list_lookup_fmap, add_noise_lookup in Hk.
    destruct (data !! k) as [x|]; [|done]. simpl in Hk. injection Hk as <-.
    exists amp, x. split; [done|]. split; [done|].
    assert (F64.is_nan (Np.clip (F64.add x (F64.mul amp (normal k))) F64.minus_one F64.one)
            = F64.is_nan (F64.add x (F64.mul amp (normal k)))) as Hnan
      by by apply clip_nan_iff.
    split; [done|]. rewrite Hnan. intros Hx. by apply clip_range.
Qed.

Lemma noisy_data_clipped_unless_nan_witness :
  length [S754_finite true 4537376624575775 (-53); S754_finite true 4571153621781053 (-54)]
    = length Demo.samples
  ∧ forall k y,
      [S754_finite true 4537376624575775 (-53);
       S754_finite true 4571153621781053 (-54)] !! k = Some y ->
      exists amp x,
        NoiseStage.noise_amp Demo.three_quarters Demo.samples = Some amp
        ∧ Demo.samples !! k = Some x
        ∧ F64.is_nan y = F64.is_nan (F64.add x (F64.mul amp (F64.of_Z 1)))
        ∧ (F64.is_nan y = false ->
            F64.leb F64.minus_one y = true ∧ F64.leb y F64.one = true).
Proof.
  apply (noisy_data_clipped_unless_nan Demo.three_quarters (λ _, F64.of_Z 1) Demo.samples).
  vm_compute. reflexivity.
Defined.

(** C7 (counterexample).  A decoded buffer that holds a NaN sample (a 32-bit
    float WAV file can) comes out of the clipping with the NaN still in it,
    and a NaN is not within [-1.0, 1.0]. *)
Lemma nan_sample_survives_clipping :
  NoiseStage.noisy_data Demo.three_quarters (λ _, F64.of_Z 1) [S754_nan] = Some [S754_nan]
  ∧ F64.leb F64.minus_one S754_nan = false
  ∧ F64.leb S754_nan F64.one = false.
Proof. split; [vm_compute; reflexivity|]. split; reflexivity. Qed.

(** ** Derived file names (C2) *)

Lemma replacement_suffix st : replacement st = suffix st +:+ ".wav".
Proof. by destruct st. Qed.

(** When '.wav' occurs in the name only as its extension, the script's name
    is the one the specification describes. *)
Lemma output_name_single_occurrence st filename :
  PyStr.endswith filename ".wav" = true ->
  PyStr.count filename ".wav" = 1 ->
  output_name st filename = derived_name_spec st filename.
Proof.
  intros He Hc. unfold output_name, derived_name_spec.
  rewrite replace_single_occurrence by done. by rewrite replacement_suffix.
Qed.

(** A transform that succeeds has written exactly one derived file, at the
    output path of the row. *)
Lemma transform_writes_one_file env st idx filename evs out :
  transform env st idx filename = (evs, Some out) ->
  derived_files evs = [output_path st filename] ∧ out = output_path st filename.
Proof.
  unfold transform. destruct st; repeat case_match; intros; by simplify_eq.
Qed.

(** C2 (the code at the failing input).  For the recording name a.wav.wav every
    stage replaces both occurrences of '.wav': the derived file is
    a<suffix>.wav<suffix>.wav, whereas substituting for the final extension only
    gives a.wav<suffix>.wav.  The whole run records that path in the manifest. *)
Theorem output_name_replaces_every_occurrence (st : Stage) :
  output_name st "a.wav.wav" = "a" +:+ replacement st +:+ replacement st
  ∧ derived_name_spec st "a.wav.wav" = "a.wav" +:+ replacement st
  ∧ output_name st "a.wav.wav" ≠ derived_name_spec st "a.wav.wav"
  ∧ PyStr.endswith "a.wav.wav" ".wav" = true
  ∧ reaches_transform Demo.env st 5 "a.wav.wav" = true
  ∧ df_at 5 (augmented_column st) (df (Demo.final st))
    = Some (os_path_join (augmented_folder st)
              ("a" +:+ replacement st +:+ replacement st)).
Proof. destruct st; repeat split; try (vm_compute; reflexivity); discriminate. Qed.

(** ** The duration filter (C3, C4) *)

(** C3 (as amended).  In the volume, noise and low-pass stages a row whose
    source file exists is probed first.  When the duration is above 30 s the
    iteration ends there: the filtered-out counter is one higher, the other
    counters, the manifest and the rest of the log are as before, and the
    probe is the only action.  Otherwise the iteration goes on to the
    transform with the probe already logged.  The speed-change stage goes
    straight to the transform: no probe, no filtered-out count. *)
Theorem duration_filter_where_present (env : Env) (st : Stage) (s : State)
    (idx : nat) (row : gmap string string) (filename stdout : string) :
  row !! "Recording Name" = Some filename ->
  PyStr.endswith filename ".wav" = true ->
  path_exists env idx (input_path filename) = true ->
  ffprobe env idx (input_path filename) = Some stdout ->
  if probes_duration st then
    if F64.gtb (duration_of env stdout) F64.thirty then
      exists s', process_row env st s idx row = Some s'
        ∧ counters s' = (success_count s, failed_count s, not_found_count s,
                         S (deleted_count s))
        ∧ df s' = df s
        ∧ trace s' = trace s ++ [EvProbe (input_path filename)]
    else
      process_row env st s idx row
        = augment_row env st (log [EvProbe (input_path filename)] s) idx filename
      ∧ forall s', process_row env st s idx row = Some s' ->
          deleted_count s' = deleted_count s
          ∧ trace s' = trace s ++ EvProbe (input_path filename)
                                 :: (transform env st idx filename).1
  else
    process_row env st s idx row = augment_row env st s idx filename
    ∧ forall s', process_row env st s idx row = Some s' ->
        deleted_count s' = deleted_count s
        ∧ trace s' = trace s ++ (transform env st idx filename).1.
Proof.
  intros Hk He Hx Hs.
  assert (forall s0 s', augment_row env st s0 idx filename = Some s' ->
            deleted_count s' = deleted_count s0
            ∧ trace s' = trace s0 ++ (transform env st idx filename).1) as Htry.
  { intros s0 s' H. split; [|by apply augment_row_trace].
    pose proof (augment_row_counters env st s0 idx filename s' H) as Hc.
    unfold counters in Hc.
    destruct (transform env st idx filename).2; by injection Hc as _ _ _ ->. }
  destruct (probes_duration st) eqn:Hp.
  - destruct (F64.gtb (duration_of env stdout) F64.thirty) eqn:Hd.
    + eexists. split; [by apply (process_row_too_long env st s idx row filename stdout)|].
      by repeat split.
    + assert (process_row env st s idx row
              = augment_row env st (log [EvProbe (input_path filename)] s) idx filename)
        as Heq.
      { rewrite (process_row_reaches env st s idx row filename Hk).
        - unfold probe_events. by rewrite Hp.
        - unfold reaches_transform, passes_duration_filter.
          by rewrite He, Hx, Hp, Hs, Hd. }
      split; [done|]. intros s' H. rewrite Heq in H.
      destruct (Htry _ _ H) as [-> ->]. simpl. by rewrite <- app_assoc.
  - assert (process_row env st s idx row = augment_row env st s idx filename) as Heq.
    { rewrite (process_row_reaches env st s idx row filename Hk).
      - unfold probe_events. rewrite Hp. by rewrite log_nil.
      - unfold reaches_transform, passes_duration_filter. by rewrite He, Hx, Hp. }
    split; [done|]. intros s' H. rewrite Heq in H. by apply Htry.
Qed.

Lemma duration_filter_where_present_witness :
  (exists s', process_row Demo.env Volume (init_state Volume Demo.manifest) 2
                (Demo.row "long.wav") = Some s'
     ∧ counters s' = (0, 0, 0, 1)
     ∧ df s' = df (init_state Volume Demo.manifest)
     ∧ trace s' = [] ++ [EvProbe "filteredforwhisper/long.wav"])
  ∧ (process_row Demo.env Lowpass (init_state Lowpass Demo.manifest) 0 (Demo.row "a.wav")
       = augment_row Demo.env Lowpass
           (log [EvProbe "filteredforwhisper/a.wav"] (init_state Lowpass Demo.manifest))
           0 "a.wav"
     ∧ forall s', process_row Demo.env Lowpass (init_state Lowpass Demo.manifest) 0
                    (Demo.row "a.wav") = Some s' ->
         deleted_count s' = 0
         ∧ trace s' = [] ++ EvProbe "filteredforwhisper/a.wav"
                            :: (transform Demo.env Lowpass 0 "a.wav").1)
  ∧ (process_row Demo.env Speed (init_state Speed Demo.manifest) 2 (Demo.row "long.wav")
       = augment_row Demo.env Speed (init_state Speed Demo.manifest) 2 "long.wav"
     ∧ forall s', process_row Demo.env Speed (init_state Speed Demo.manifest) 2
                    (Demo.row "long.wav") = Some s' ->
         deleted_count s' = 0
         ∧ trace s' = [] ++ (transform Demo.env Speed 2 "long.wav").1).
Proof.
  split; [|split].
  - exact (duration_filter_where_present Demo.env Volume (init_state Volume Demo.manifest)
             2 (Demo.row "long.wav") "long.wav" "45.0" eq_refl eq_refl eq_refl eq_refl).
  - exact (duration_filter_where_present Demo.env Lowpass (init_state Lowpass Demo.manifest)
             0 (Demo.row "a.wav") "a.wav" "10.0" eq_refl eq_refl eq_refl eq_refl).
  - exact (duration_filter_where_present Demo.env Speed (init_state Speed Demo.manifest)
             2 (Demo.row "long.wav") "long.wav" "45.0" eq_refl eq_refl eq_refl eq_refl).
Defined.

(** C3 (counterexample).  In the speed-change stage the recording long.wav,
    which exists and whose duration the probe tool reports as 45 s, is
    transcoded and counted as a success; nothing is probed and the filtered-out
    counter stays at zero. *)
Lemma speed_stage_transforms_long_recording :
  path_exists Demo.env 2 (input_path "long.wav") = true
  ∧ F64.gtb (duration_of Demo.env (Demo.probe (input_path "long.wav"))) F64.thirty = true
  ∧ (λ s', (counters s', trace s'))
      <$> process_row Demo.env Speed (init_state Speed Demo.manifest) 2 (Demo.row "long.wav")
    = Some ((1, 0, 0, 0),
            [EvFfmpeg "filteredforwhisper/long.wav" Atempo2 "augmented_2x/long_2x.wav"]).
Proof. repeat split; vm_compute; reflexivity. Qed.

(** C4 (as amended).  In the volume, noise and low-pass stages a probe output
    that [float] rejects gives the duration zero: the row passes the filter
    and goes on to the transform, and it is counted as failed exactly when
    the transform itself fails (the failure handler returning).  In the
    conversion script the same output raises inside the [try] block: the file
    is recorded as failed, and is neither kept nor skipped. *)
Theorem unparsable_duration (env : Env) :
  (forall st s idx row filename stdout,
     probes_duration st = true ->
     row !! "Recording Name" = Some filename ->
     PyStr.endswith filename ".wav" = true ->
     path_exists env idx (input_path filename) = true ->
     ffprobe env idx (input_path filename) = Some stdout ->
     py_float env stdout = None ->
     ((transform env st idx filename).2 = None ->
      handler_returns env st idx filename = true) ->
     duration_of env stdout = F64.of_Z 0
     ∧ passes_duration_filter env st idx filename = true
     ∧ exists s', process_row env st s idx row = Some s'
         ∧ augment_row env st (log [EvProbe (input_path filename)] s) idx filename
           = Some s'
         ∧ deleted_count s' = deleted_count s
         ∧ failed_count s'
           = match (transform env st idx filename).2 with
             | Some _ => failed_count s
             | None => S (failed_count s)
             end)
  ∧ (forall s k filename stdout,
       PyStr.endswith filename ".webm" = true ->
       ffmpeg_ok env k (os_path_join Convert.input_folder filename) Pcm16kMono
         (os_path_join Convert.wav_folder (Convert.output_name filename)) = true ->
       ffprobe env k (os_path_join Convert.wav_folder (Convert.output_name filename))
         = Some stdout ->
       py_float env stdout = None ->
       Convert.failed_files (Convert.convert_file env s k filename)
         = Convert.failed_files s ++ [filename]
       ∧ Convert.kept_count (Convert.convert_file env s k filename) = Convert.kept_count s
       ∧ Convert.skipped_count (Convert.convert_file env s k filename)
         = Convert.skipped_count s).
Proof.
  split.
  - intros st s idx row filename stdout Hp Hk He Hx Hs Hf Hh.
    assert (duration_of env stdout = F64.of_Z 0) as Hd
      by (unfold duration_of; by rewrite Hf).
    assert (passes_duration_filter env st idx filename = true) as Hpass
      by (unfold passes_duration_filter; by rewrite Hp, Hs, Hd).
    split; [done|]. split; [done|].
    destruct (augment_row_returns env st (log [EvProbe (input_path filename)] s)
                idx filename Hh) as [s' Hs'].
    exists s'.
    assert (process_row env st s idx row = Some s') as Hrow.
    { rewrite (process_row_reaches env st s idx row filename Hk).
      - unfold probe_events. by rewrite Hp.
      - unfold reaches_transform. by rewrite He, Hx, Hpass. }
    split; [done|]. split; [done|].
    pose proof (augment_row_counters env st _ idx filename s' Hs') as Hc.
    unfold counters in Hc.
    destruct (transform env st idx filename).2; by injection Hc as _ -> _ ->.
  - intros s k filename stdout He Hok Hs Hf. unfold Convert.convert_file.
    by rewrite He, Hok, Hs, Hf.
Qed.

Lemma unparsable_duration_witness :
  (duration_of Demo.env "N/A" = F64.of_Z 0
   ∧ passes_duration_filter Demo.env Lowpass 3 "odd.wav" = true
   ∧ exists s', process_row Demo.env Lowpass (init_state Lowpass Demo.manifest) 3
                  (Demo.row "odd.wav") = Some s'
       ∧ augment_row Demo.env Lowpass
           (log [EvProbe (input_path "odd.wav")] (init_state Lowpass Demo.manifest))
           3 "odd.wav" = Some s'
       ∧ deleted_count s' = deleted_count (init_state Lowpass Demo.manifest)
       ∧ failed_count s'
         = match (transform Demo.env Lowpass 3 "odd.wav").2 with
           | Some _ => failed_count (init_state Lowpass Demo.manifest)
           | None => S (failed_count (init_state Lowpass Demo.manifest))
           end)
  ∧ (Convert.failed_files (Convert.convert_file Demo.env Convert.init 1 "odd.webm")
       = Convert.failed_files Convert.init ++ ["odd.webm"]
     ∧ Convert.kept_count (Convert.convert_file Demo.env Convert.init 1 "odd.webm")
       = Convert.kept_count Convert.init
     ∧ Convert.skipped_count (Convert.convert_file Demo.env Convert.init 1 "odd.webm")
       = Convert.skipped_count Convert.init).
Proof.
  split.
  - apply (proj1 (unparsable_duration Demo.env) Lowpass (init_state Lowpass Demo.manifest)
             3 (Demo.row "odd.wav") "odd.wav" "N/A"); reflexivity.
  - apply (proj2 (unparsable_duration Demo.env) Convert.init 1 "odd.webm" "N/A");
      reflexivity.
Defined.

(** C4 (counterexample).  The conversion script probes the duration too; when
    the probe prints N/A for odd.webm, the file lands in the list of failed
    conversions instead of passing the 30-second filter. *)
Lemma unparsable_duration_fails_conversion :
  py_float Demo.env (Demo.probe "wavaudios/odd.wav") = None
  ∧ Convert.convert_file Demo.env Convert.init 1 "odd.webm"
    = {| Convert.failed_files := ["odd.webm"];
         Convert.kept_count := 0;
         Convert.skipped_count := 0;
         Convert.ctrace := [EvFfmpeg "webaudios/odd.webm" Pcm16kMono "wavaudios/odd.wav";
                            EvProbe "wavaudios/odd.wav"] |}.
Proof. split; vm_compute; reflexivity. Qed.

(** ** The manifest after a run (C5, C6, C8) *)

Section RunFacts.

Variables (env : Env) (st : Stage).

(** The loop leaves every column but the two path columns as loaded. *)
Lemma run_preserves d s' :
  run env st d = Some s' ->
  df_columns (df s') = df_columns (add_columns st d)
  ∧ length (df_rows (df s')) = length (df_rows d)
  ∧ forall i row, df_rows d !! i = Some row ->
      exists row', df_rows (df s') !! i = Some row'
        ∧ forall c, c ≠ "original_audio" -> c ≠ augmented_column st ->
            row' !! c = row !! c.
Proof.
  unfold run. intros H. apply iterrows_frame in H as (Hcols & Hlen & _ & Hcells).
  change (df (init_state st d)) with (add_columns st d) in *.
  rewrite add_columns_rows, length_fmap in Hlen.
  split; [done|]. split; [done|].
  intros i row Hrow.
  destruct (lookup_lt_is_Some_2 (df_rows (df s')) i) as [row' Hrow'].
  { rewrite Hlen. by eapply lookup_lt_Some. }
  exists row'. split; [done|]. intros c Ho Ha.
  specialize (Hcells i c Ho Ha). unfold df_at in Hcells.
  rewrite Hrow', add_columns_rows, list_lookup_fmap, Hrow in Hcells. simpl in Hcells.
  rewrite Hcells. by apply blank_row_other.
Qed.

Lemma script_completed s :
  script env st = Completed s ->
  exists d, read_csv env (csv_path st) = Some d ∧ run env st d = Some s.
Proof.
  unfold script. repeat case_match; try done. intros [= <-]. by eexists.
Qed.

End RunFacts.



(** C6.  A row whose recording name ends in '.wav' and whose source path does
    not exist ends its iteration with the not-found counter exactly one higher
    and nothing else changed (no other counter, no cell, no external action),
    and in the manifest left by the run both path cells of the row are
    blank. *)
Theorem missing_source_row (env : Env) (st : Stage) (d : DataFrame)
    (s_end : State) (i : nat) (row : gmap string string) (filename : string) :
  run env st d = Some s_end ->
  df_rows d !! i = Some row ->
  row !! "Recording Name" = Some filename ->
  PyStr.endswith filename ".wav" = true ->
  path_exists env i (input_path filename) = false ->
  (forall s, exists s',
     process_row env st s i (blank_row st row) = Some s'
     ∧ not_found_count s' = S (not_found_count s)
     ∧ success_count s' = success_count s
     ∧ failed_count s' = failed_count s
     ∧ deleted_count s' = deleted_count s
     ∧ df s' = df s
     ∧ trace s' = trace s)
  ∧ df_at i "original_audio" (df s_end) = Some ""
  ∧ df_at i (augmented_column st) (df s_end) = Some "".
Proof.
  intros Hrun Hrow Hk He Hx.
  assert (forall s, process_row env st s i (blank_row st row) = Some (incr_not_found s))
    as Hstep.
  { intros s. apply process_row_not_found with filename; [|done..].
    by rewrite blank_row_key. }
  split.
  { intros s. exists (incr_not_found s). split; [apply Hstep|]. by repeat split. }
  destruct (run_row env st d s_end i row Hrun Hrow) as (s1 & s2 & H12 & _ & H1 & H2).
  rewrite Hstep in H12. injection H12 as <-.
  unfold df_at. rewrite H2. simpl. rewrite H1. simpl.
  split; [apply blank_row_original|apply blank_row_augmented].
Qed.

Lemma missing_source_row_witness :
  (forall s, exists s',
     process_row Demo.env Noise s 1 (blank_row Noise (Demo.row "gone.wav")) = Some s'
     ∧ not_found_count s' = S (not_found_count s)
     ∧ success_count s' = success_count s
     ∧ failed_count s' = failed_count s
     ∧ deleted_count s' = deleted_count s
     ∧ df s' = df s
     ∧ trace s' = trace s)
  ∧ df_at 1 "original_audio" (df (Demo.final Noise)) = Some ""
  ∧ df_at 1 (augmented_column Noise) (df (Demo.final Noise)) = Some "".
Proof.
  apply (missing_source_row Demo.env Noise Demo.manifest (Demo.final Noise) 1
           (Demo.row "gone.wav") "gone.wav"); vm_compute; reflexivity.
Defined.

(** C8.  In a run that completes, a row that reaches the transform and whose
    transform fails has had its failure counted (the handler of that row
    returned, since a handler that raises ends the run), and in the manifest
    left by the run it has its source path in 'original_audio' and a blank
    derived-path cell; the source path is never the empty string, so the row
    differs from a not-found row, whose 'original_audio' is blank. *)
Theorem failed_row_keeps_original_audio (env : Env) (st : Stage) (d : DataFrame)
    (s_end : State) (i : nat) (row : gmap string string) (filename : string) :
  run env st d = Some s_end ->
  df_rows d !! i = Some row ->
  row !! "Recording Name" = Some filename ->
  reaches_transform env st i filename = true ->
  (transform env st i filename).2 = None ->
  handler_returns env st i filename = true
  ∧ (forall s, exists s', process_row env st s i (blank_row st row) = Some s'
       ∧ failed_count s' = S (failed_count s) ∧ success_count s' = success_count s)
  ∧ df_at i "original_audio" (df s_end) = Some (input_path filename)
  ∧ df_at i (augmented_column st) (df s_end) = Some ""
  ∧ df_at i "original_audio" (df s_end) ≠ Some "".
Proof.
  intros Hrun Hrow Hk Hr Hfail.
  assert (forall s, process_row env st s i (blank_row st row)
            = augment_row env st (log (probe_events st filename) s) i filename)
    as Hstep.
  { intros s. apply process_row_reaches; [|done]. by rewrite blank_row_key. }
  destruct (run_row env st d s_end i row Hrun Hrow) as (s1 & s2 & H12 & _ & H1 & H2).
  rewrite Hstep in H12.
  assert (handler_returns env st i filename = true) as Hh.
  { destruct (handler_returns env st i filename) eqn:E; [done|].
    by rewrite (augment_row_raises env st _ i filename Hfail E) in H12. }
  split; [done|]. split.
  { intros s.
    destruct (augment_row_returns env st (log (probe_events st filename) s) i filename)
      as [s' Hs']; [done|].
    exists s'. split; [by rewrite Hstep|].
    pose proof (augment_row_counters env st _ i filename s' Hs') as Hc.
    rewrite Hfail in Hc. unfold counters in Hc. by injection Hc as -> -> _ _. }
  destruct (augment_row_cells env st (log (probe_events st filename) s1) i filename s2 H12)
    as [Ho Ha].
  { simpl. by eapply lookup_lt_Some. }
  { unfold df_at. simpl. rewrite H1. simpl. apply blank_row_augmented. }
  rewrite Hfail in Ha. simpl in Ha.
  assert (df_at i "original_audio" (df s_end) = Some (input_path filename)) as Hfinal.
  { unfold df_at in *. by rewrite H2. }
  split; [done|]. split.
  - unfold df_at in *. by rewrite H2.
  - rewrite Hfinal. intros [= Hempty]. by apply input_path_not_empty in Hempty.
Qed.

Lemma failed_row_keeps_original_audio_witness :
  handler_returns Demo.env Volume 3 "odd.wav" = true
  ∧ (forall s, exists s',
       process_row Demo.env Volume s 3 (blank_row Volume (Demo.row "odd.wav")) = Some s'
       ∧ failed_count s' = S (failed_count s) ∧ success_count s' = success_count s)
  ∧ df_at 3 "original_audio" (df (Demo.final Volume)) = Some (input_path "odd.wav")
  ∧ df_at 3 (augmented_column Volume) (df (Demo.final Volume)) = Some ""
  ∧ df_at 3 "original_audio" (df (Demo.final Volume)) ≠ Some "".
Proof.
  apply (failed_row_keeps_original_audio Demo.env Volume Demo.manifest (Demo.final Volume)
           3 (Demo.row "odd.wav") "odd.wav"); vm_compute; reflexivity.
Defined.

(** ** Start-up and counters (C9, C10) *)

(** C9.  With the manifest file missing the script calls [exit()] without an
    argument: the interpreter ends with status 0, the status of a run that
    completed, and no manifest is written. *)
Theorem missing_manifest_exits_zero (env : Env) (st : Stage) :
  makedirs_ok env (augmented_folder st) = true ->
  manifest_exists env (csv_path st) = false ->
  script env st = SystemExit None
  ∧ exit_status (script env st) = 0%Z
  ∧ written_manifest st (script env st) = None
  ∧ forall s, exit_status (script env st) = exit_status (Completed s).
Proof.
  intros Hdir Hcsv. unfold script. by rewrite Hdir, Hcsv.
Qed.

Lemma missing_manifest_exits_zero_witness :
  script Demo.env_no_manifest Speed = SystemExit None
  ∧ exit_status (script Demo.env_no_manifest Speed) = 0%Z
  ∧ written_manifest Speed (script Demo.env_no_manifest Speed) = None
  ∧ forall s, exit_status (script Demo.env_no_manifest Speed) = exit_status (Completed s).
Proof.
  apply (missing_manifest_exits_zero Demo.env_no_manifest Speed); reflexivity.
Defined.

(** C10.  An iteration leaves the counters as they were or increments exactly
    one of them by one; it leaves them as they were when the recording name
    does not end in '.wav'; and at the end of a run the counters add up to at
    most the number of manifest rows. *)
Theorem counters_bounded_by_rows (env : Env) (st : Stage) (d : DataFrame)
    (s_end : State) :
  run env st d = Some s_end ->
  counter_sum s_end <= length (df_rows d)
  ∧ (forall s idx row s',
       process_row env st s idx row = Some s' ->
       counters s' = counters s
       ∨ counters s' = (S (success_count s), failed_count s, not_found_count s,
                        deleted_count s)
       ∨ counters s' = (success_count s, S (failed_count s), not_found_count s,
                        deleted_count s)
       ∨ counters s' = (success_count s, failed_count s, S (not_found_count s),
                        deleted_count s)
       ∨ counters s' = (success_count s, failed_count s, not_found_count s,
                        S (deleted_count s)))
  ∧ (forall s idx row filename,
       row !! "Recording Name" = Some filename ->
       PyStr.endswith filename ".wav" = false ->
       exists s', process_row env st s idx row = Some s' ∧ counters s' = counters s).
Proof.
  intros Hrun. split; [|split].
  - unfold run in Hrun. apply iterrows_counter_sum in Hrun.
    rewrite add_columns_rows, length_fmap in Hrun. by simpl in Hrun.
  - apply process_row_counters.
  - intros s idx row filename Hk He. exists s. split; [|done].
    by apply process_row_not_wav with filename.
Qed.

Lemma counters_bounded_by_rows_witness :
  counter_sum (Demo.final Lowpass) <= length (df_rows Demo.manifest)
  ∧ (forall s idx row s',
       process_row Demo.env Lowpass s idx row = Some s' ->
       counters s' = counters s
       ∨ counters s' = (S (success_count s), failed_count s, not_found_count s,
                        deleted_count s)
       ∨ counters s' = (success_count s, S (failed_count s), not_found_count s,
                        deleted_count s)
       ∨ counters s' = (success_count s, failed_count s, S (not_found_count s),
                        deleted_count s)
       ∨ counters s' = (success_count s, failed_count s, not_found_count s,
                        S (deleted_count s)))
  ∧ (forall s idx row filename,
       row !! "Recording Name" = Some filename ->
       PyStr.endswith filename ".wav" = false ->
       exists s', process_row Demo.env Lowpass s idx row = Some s'
                  ∧ counters s' = counters s).
Proof.
  apply (counters_bounded_by_rows Demo.env Lowpass Demo.manifest (Demo.final Lowpass)).
  vm_compute. reflexivity.
Defined.

(** * Further properties *)

(** ** The scan of a name for '.wav' *)

Section WavScan.

Implicit Types (s t new : string).

Lemma string_length_app s t : String.length (s +:+ t) = String.length s + String.length t.
Proof.
  induction s as [|c s IH]; [done|].
  change (S (String.length (s +:+ t)) = S (String.length s + String.length t)).
  by rewrite IH.
Qed.

Lemma replace_other_step new c s :
  PyStr.startswith (String c s) ".wav" = false ->
  PyStr.replace (String c s) ".wav" new = String c (PyStr.replace s ".wav" new).
Proof. intros H. unfold PyStr.replace. cbn [PyStr.replace_go]. by rewrite H. Qed.

Lemma count_other_step c s :
  PyStr.startswith (String c s) ".wav" = false ->
  PyStr.count (String c s) ".wav" = PyStr.count s ".wav".
Proof. intros H. unfold PyStr.count. cbn [PyStr.count_go]. by rewrite H. Qed.

(** Induction along the scan: an occurrence is consumed whole, any other
    character is passed over. *)
Lemma wav_scan_ind (P : string -> Prop) :
  P "" ->
  (forall t, P t -> P (".wav" +:+ t)) ->
  (forall c s, PyStr.startswith (String c s) ".wav" = false -> P s -> P (String c s)) ->
  forall s, P s.
Proof.
  intros Hnil Hocc Hother s.
  assert (forall n s, String.length s <= n -> P s) as Hall; [|by apply (Hall (String.length s))].
  clear s. induction n as [|n IH]; intros s Hn.
  - destruct s; [done|simpl in Hn; lia].
  - destruct s as [|c s]; [done|].
    destruct (PyStr.startswith (String c s) ".wav") eqn:Hp.
    + apply startswith_wav in Hp as [t Ht]. rewrite Ht. apply Hocc, IH.
      rewrite Ht in Hn. rewrite string_length_app in Hn. simpl in Hn. lia.
    + apply Hother; [done|]. apply IH. simpl in Hn. lia.
Qed.

Lemma endswith_wav_step t :
  PyStr.endswith (".wav" +:+ t) ".wav" = true -> t = "" ∨ PyStr.endswith t ".wav" = true.
Proof. destruct t as [|d t]; [by left|]. intros H. right. revert H. simpl. done. Qed.

Lemma endswith_other_step c s :
  PyStr.startswith (String c s) ".wav" = false ->
  PyStr.endswith (String c s) ".wav" = true ->
  PyStr.endswith s ".wav" = true.
Proof.
  intros Hp. rewrite endswith_cons. intros [H|H]%orb_true_iff; [|done].
  apply String.eqb_eq in H. by rewrite H in Hp.
Qed.

Lemma endswith_app s t suf :
  PyStr.endswith t suf = true -> PyStr.endswith (s +:+ t) suf = true.
Proof.
  intros H. induction s as [|c s IH]; [done|].
  change (String c s +:+ t) with (String c (s +:+ t)).
  rewrite endswith_cons, IH. apply orb_true_r.
Qed.

(** Every occurrence adds the difference of the lengths. *)
Lemma replace_length new s :
  4 <= String.length new ->
  String.length (PyStr.replace s ".wav" new)
  = String.length s + PyStr.count s ".wav" * (String.length new - 4).
Proof.
  intros Hnew. induction s as [|t IH|c s Hp IH] using wav_scan_ind.
  - done.
  - rewrite replace_wav_step, count_wav_step, !string_length_app, IH. simpl. lia.
  - rewrite replace_other_step, count_other_step by done. simpl. by rewrite IH.
Qed.

(** A name that ends in '.wav' still does after the replacement. *)
Lemma replace_endswith new s :
  PyStr.endswith new ".wav" = true ->
  PyStr.endswith s ".wav" = true ->
  PyStr.endswith (PyStr.replace s ".wav" new) ".wav" = true.
Proof.
  intros Hnew. induction s as [|t IH|c s Hp IH] using wav_scan_ind; intros He.
  - done.
  - rewrite replace_wav_step. apply endswith_wav_step in He as [->|He].
    + by rewrite app_empty_r.
    + by apply endswith_app, IH.
  - rewrite replace_other_step by done. rewrite endswith_cons.
    rewrite IH; [apply orb_true_r|]. by eapply endswith_other_step.
Qed.

(** The first character of a name survives unless it opens an occurrence. *)
Lemma replace_startswith_slash new s :
  PyStr.startswith s "/" = true ->
  PyStr.startswith (PyStr.replace s ".wav" new) "/" = true.
Proof.
  destruct s as [|c s]; [done|]. intros H.
  assert (c = "/"%char) as ->.
  { cbn [PyStr.startswith] in H. destruct (Ascii.eqb "/" c) eqn:E; [|done].
    symmetry. by apply Ascii.eqb_eq. }
  by rewrite replace_other_step.
Qed.

End WavScan.

(** ** The final extension in the conversion script *)

Section WebmName.

Lemma before_last_webm filename :
  PyStr.endswith filename ".webm" = true ->
  PyStr.before_last "." filename = Some (strip_suffix filename ".webm").
Proof.
  induction filename as [|c s IH]; [done|].
  rewrite endswith_cons. cbn [strip_suffix].
  destruct (String.eqb_spec (String c s) ".webm") as [->|Hne]; [done|].
  simpl. intros He. cbn [PyStr.before_last]. by rewrite IH.
Qed.

End WebmName.

(** ** Outcomes of the rows *)

Section OutcomeFacts.

Variables (env : Env) (st : Stage).

Implicit Types (s : State) (row : gmap string string) (o : Outcome).

Lemma outcome_blank_row idx row :
  outcome env st idx (blank_row st row) = outcome env st idx row.
Proof. unfold outcome, name_of. by rewrite blank_row_key. Qed.

Lemma process_row_named s idx row s' :
  process_row env st s idx row = Some s' -> is_Some (recording_name (df s) row).
Proof.
  unfold process_row. by destruct (recording_name (df s) row); [eexists|].
Qed.

(** What is tried on the row once the filters are passed. *)
Lemma augment_row_outcome s idx filename :
  match (match (transform env st idx filename).2 with
         | Some _ => Some Succeeded
         | None => if handler_returns env st idx filename then Some Failed else None
         end) with
  | None => augment_row env st s idx filename = None
  | Some o => exists s', augment_row env st s idx filename = Some s'
                ∧ counters s' = tally o s
  end.
Proof.
  destruct (transform env st idx filename).2 as [out|] eqn:Ht.
  - destruct (augment_row_returns env st s idx filename) as [s' Hs'];
      [by rewrite Ht|].
    exists s'. split; [done|].
    by rewrite (augment_row_counters env st s idx filename s' Hs'), Ht.
  - destruct (handler_returns env st idx filename) eqn:Hh.
    + destruct (augment_row_returns env st s idx filename) as [s' Hs']; [done|].
      exists s'. split; [done|].
      by rewrite (augment_row_counters env st s idx filename s' Hs'), Ht.
    + by apply augment_row_raises.
Qed.

(** On a row that has a name, the iteration raises exactly when the outcome
    is undefined, and otherwise counts the row under its outcome. *)
Lemma process_row_outcome s idx row :
  is_Some (recording_name (df s) row) ->
  match outcome env st idx row with
  | None => process_row env st s idx row = None
  | Some o => exists s', process_row env st s idx row = Some s' ∧ counters s' = tally o s
  end.
Proof.
  intros [filename Hname]. pose proof (recording_name_name_of _ _ _ Hname) as Hn.
  unfold outcome, process_row. rewrite Hname, <- Hn. cbn [mbind option_bind].
  destruct (negb (PyStr.endswith filename ".wav")); [by eexists|].
  destruct (negb (path_exists env idx (input_path filename))); [by eexists|].
  destruct (probes_duration st).
  - destruct (ffprobe env idx (input_path filename)) as [stdout|]; [|done].
    cbn [mbind option_bind].
    destruct (F64.gtb (duration_of env stdout) F64.thirty); [by eexists|].
    pose proof (augment_row_outcome (log [EvProbe (input_path filename)] s) idx filename)
      as H.
    destruct (match (transform env st idx filename).2 with
              | Some _ => Some Succeeded
              | None => if handler_returns env st idx filename then Some Failed else None
              end) as [o|]; [|done].
    destruct H as (s' & Hs' & Hc). exists s'. split; [done|].
    rewrite Hc. by destruct o.
  - pose proof (augment_row_outcome s idx filename) as H.
    destruct (match (transform env st idx filename).2 with
              | Some _ => Some Succeeded
              | None => if handler_returns env st idx filename then Some Failed else None
              end) as [o|]; [|done].
    destruct H as (s' & Hs' & Hc). exists s'. split; [done|].
    rewrite Hc. by destruct o.
Qed.

Lemma occurrences_cons o x l :
  occurrences o (x :: l) = (if decide (x = Some o) then 1 else 0) + occurrences o l.
Proof. unfold occurrences. rewrite filter_cons. by case_decide. Qed.

Lemma outcomes_length rows : forall idx, length (outcomes env st idx rows) = length rows.
Proof. induction rows as [|row rows IH]; intros idx; simpl; [done|by rewrite IH]. Qed.

Lemma outcomes_lookup rows : forall idx i row,
  rows !! i = Some row -> outcomes env st idx rows !! i = Some (outcome env st (idx + i) row).
Proof.
  induction rows as [|r rows IH]; intros idx i row Hi; [done|].
  destruct i as [|i]; simpl in *.
  - injection Hi as ->. by rewrite Nat.add_0_r.
  - rewrite (IH (S idx) i row Hi). do 2 f_equal. lia.
Qed.

Lemma outcomes_blank rows : forall idx,
  outcomes env st idx (blank_row st <$> rows) = outcomes env st idx rows.
Proof.
  induction rows as [|row rows IH]; intros idx; simpl; [done|].
  by rewrite outcome_blank_row, IH.
Qed.

(** Over the loop each counter grows by the number of rows with its outcome. *)
Lemma iterrows_tally rows : forall s idx s',
  iterrows env st s idx rows = Some s' ->
  success_count s' = success_count s + occurrences Succeeded (outcomes env st idx rows)
  ∧ failed_count s' = failed_count s + occurrences Failed (outcomes env st idx rows)
  ∧ not_found_count s' = not_found_count s + occurrences NotFound (outcomes env st idx rows)
  ∧ deleted_count s' = deleted_count s + occurrences TooLong (outcomes env st idx rows).
Proof.
  induction rows as [|row rows IH]; intros s idx s' H; simpl in H.
  - injection H as <-. unfold occurrences. simpl. lia.
  - destruct (process_row env st s idx row) as [s0|] eqn:H0; [|done].
    pose proof (process_row_outcome s idx row (process_row_named _ _ _ _ H0)) as Hrow.
    destruct (outcome env st idx row) as [o|] eqn:Ho; [|congruence].
    destruct Hrow as (s1 & Hs1 & Hc). assert (s1 = s0) as -> by congruence.
    cbn [mbind option_bind] in H.
    apply IH in H as (H1 & H2 & H3 & H4).
    cbn [outcomes]. rewrite Ho, !occurrences_cons.
    unfold counters in Hc. destruct o; simpl in Hc; injection Hc as Ha Hb Hc Hd;
      repeat case_decide; try done; lia.
Qed.

(** Every outcome but [Ignored] belongs to a row named '.wav'. *)
Lemma outcome_wav idx row o :
  outcome env st idx row = Some o -> is_wav_row row = bool_decide (o ≠ Ignored).
Proof.
  assert (is_wav_row row = PyStr.endswith (name_of row) ".wav") as ->.
  { unfold is_wav_row, name_of. by destruct (row !! "Recording Name"). }
  unfold outcome. generalize (name_of row) as filename. intros filename.
  destruct (PyStr.endswith filename ".wav"); cbn [negb]; [|by intros [= <-]].
  destruct (negb (path_exists env idx (input_path filename))); [by intros [= <-]|].
  assert (match (transform env st idx filename).2 with
          | Some _ => Some Succeeded
          | None => if handler_returns env st idx filename then Some Failed else None
          end = Some o -> true = bool_decide (o ≠ Ignored)) as Htry.
  { destruct (transform env st idx filename).2; [by intros [= <-]|].
    destruct (handler_returns env st idx filename); [by intros [= <-]|done]. }
  destruct (probes_duration st); [|done].
  destruct (ffprobe env idx (input_path filename)) as [stdout|]; [|done].
  cbn [mbind option_bind].
  by destruct (F64.gtb (duration_of env stdout) F64.thirty); [intros [= <-]|].
Qed.

Lemma iterrows_counter_sum_exact rows : forall s idx s',
  iterrows env st s idx rows = Some s' ->
  counter_sum s' = counter_sum s + length (filter (λ row, is_wav_row row) rows).
Proof.
  induction rows as [|row rows IH]; intros s idx s' H; simpl in H.
  - injection H as <-. simpl. lia.
  - destruct (process_row env st s idx row) as [s0|] eqn:H0; [|done].
    pose proof (process_row_outcome s idx row (process_row_named _ _ _ _ H0)) as Hrow.
    destruct (outcome env st idx row) as [o|] eqn:Ho; [|congruence].
    destruct Hrow as (s1 & Hs1 & Hc). assert (s1 = s0) as -> by congruence.
    cbn [mbind option_bind] in H.
    apply IH in H. rewrite H. apply outcome_wav in Ho.
    rewrite filter_cons. unfold counter_sum, counters in *.
    destruct o; simpl in Hc; injection Hc as -> -> -> ->; rewrite Ho; simpl; lia.
Qed.

End OutcomeFacts.

(** ** The path cells a run leaves *)

Section CellFacts.

Variables (env : Env) (st : Stage).

Implicit Types (s : State) (row : gmap string string) (o : Outcome).

Lemma output_path_not_empty filename : output_path st filename ≠ "".
Proof.
  unfold output_path, os_path_join.
  destruct (PyStr.startswith (output_name st filename) "/") eqn:E.
  - by destruct (output_name st filename).
  - by destruct st.
Qed.

Lemma recording_name_add_columns d row :
  recording_name (add_columns st d) (blank_row st row) = recording_name d row.
Proof.
  unfold recording_name. rewrite blank_row_key.
  destruct (row !! "Recording Name"); [done|].
  destruct (decide ("Recording Name" ∈ df_columns d)) as [Hin|Hout].
  - rewrite decide_True; [done|].
    destruct (add_columns_prefix st d) as [k ->]. apply elem_of_app. by left.
  - rewrite decide_False; [done|].
    intros [H|[H|H]]%add_columns_elem; [done..|]. by destruct st.
Qed.

(** The cells of its own row after an iteration that started on a blank row. *)
Lemma process_row_cells s idx row s' o :
  process_row env st s idx row = Some s' ->
  outcome env st idx row = Some o ->
  idx < length (df_rows (df s)) ->
  df_at idx "original_audio" (df s) = Some "" ->
  df_at idx (augmented_column st) (df s) = Some "" ->
  df_at idx "original_audio" (df s') = Some (original_cell o (name_of row))
  ∧ df_at idx (augmented_column st) (df s') = Some (augmented_cell st o (name_of row)).
Proof.
  intros Hs' Ho Hlt Hbo Hba.
  destruct (process_row_named env st s idx row s' Hs') as [filename Hname].
  pose proof (recording_name_name_of _ _ _ Hname) as Hn.
  revert Hs' Ho. unfold process_row, outcome.
  rewrite Hname, <- Hn. cbn [mbind option_bind].
  assert (forall s0, df s0 = df s ->
    forall s1, augment_row env st s0 idx filename = Some s1 ->
    forall o1, match (transform env st idx filename).2 with
               | Some _ => Some Succeeded
               | None => if handler_returns env st idx filename then Some Failed
                         else None
               end = Some o1 ->
    df_at idx "original_audio" (df s1) = Some (original_cell o1 filename)
    ∧ df_at idx (augmented_column st) (df s1) = Some (augmented_cell st o1 filename))
    as Htry.
  { intros s0 Hs0 s1 Hs1 o1 Ho1.
    destruct (augment_row_cells env st s0 idx filename s1 Hs1) as [Ha Hb].
    - by rewrite Hs0.
    - by rewrite Hs0.
    - rewrite Ha, Hb.
      destruct (transform env st idx filename) as [evs [out|]] eqn:Ht; simpl in *.
      + injection Ho1 as <-. simpl.
        by rewrite (transform_out env st idx filename evs out Ht).
      + destruct (handler_returns env st idx filename); [|done].
        by injection Ho1 as <-. }
  destruct (negb (PyStr.endswith filename ".wav"));
    [intros [= <-] [= <-]; split; [exact Hbo|exact Hba]|].
  destruct (negb (path_exists env idx (input_path filename)));
    [intros [= <-] [= <-]; split; [exact Hbo|exact Hba]|].
  destruct (probes_duration st).
  - destruct (ffprobe env idx (input_path filename)) as [stdout|]; [|done].
    cbn [mbind option_bind].
    destruct (F64.gtb (duration_of env stdout) F64.thirty);
      [intros [= <-] [= <-]; split; [exact Hbo|exact Hba]|].
    intros H1 H2.
    exact (Htry (log [EvProbe (input_path filename)] s) eq_refl _ H1 _ H2).
  - intros H1 H2. exact (Htry s eq_refl _ H1 _ H2).
Qed.

Lemma run_row_report d s_end i row :
  run env st d = Some s_end ->
  df_rows d !! i = Some row ->
  exists o,
    recording_name d row = Some (name_of row)
    ∧ outcome env st i row = Some o
    ∧ df_at i "original_audio" (df s_end) = Some (original_cell o (name_of row))
    ∧ df_at i (augmented_column st) (df s_end)
      = Some (augmented_cell st o (name_of row)).
Proof.
  intros Hrun Hrow.
  destruct (run_row env st d s_end i row Hrun Hrow) as (s1 & s2 & H12 & Hc & H1 & H2).
  pose proof (process_row_named env st s1 i _ s2 H12) as Hnamed.
  pose proof (process_row_outcome env st s1 i (blank_row st row) Hnamed) as Ho.
  rewrite outcome_blank_row in Ho.
  destruct (outcome env st i row) as [o|] eqn:Hout; [|by rewrite Ho in H12].
  exists o. split.
  { destruct Hnamed as [filename Hname].
    rewrite (recording_name_columns _ _ _ Hc), recording_name_add_columns in Hname.
    by rewrite Hname, (recording_name_name_of _ _ _ Hname). }
  split; [done|].
  destruct (process_row_cells s1 i (blank_row st row) s2 o) as [Ha Hb].
  - done.
  - by rewrite outcome_blank_row.
  - by eapply lookup_lt_Some.
  - unfold df_at. rewrite H1. simpl. apply blank_row_original.
  - unfold df_at. rewrite H1. simpl. apply blank_row_augmented.
  - assert (name_of (blank_row st row) = name_of row) as Hn
      by (unfold name_of; by rewrite blank_row_key).
    rewrite Hn in Ha, Hb. unfold df_at in *. by rewrite H2.
Qed.

(** Two lists that agree position by position on two tests have as many
    positive entries. *)
Lemma filter_length_pointwise {A B} (P : A -> Prop) `{!forall x, Decision (P x)}
    (Q : B -> Prop) `{!forall y, Decision (Q y)} (l : list A) :
  forall k : list B,
  length l = length k ->
  (forall i x y, l !! i = Some x -> k !! i = Some y -> P x <-> Q y) ->
  length (filter P l) = length (filter Q k).
Proof.
  induction l as [|x l IH]; intros [|y k] Hlen Hpt; simpl in Hlen; try done.
  rewrite !filter_cons.
  pose proof (Hpt 0 x y eq_refl eq_refl) as Hxy.
  assert (length (filter P l) = length (filter Q k)) as Hrest.
  { apply IH; [lia|]. intros i a b Ha Hb. by apply (Hpt (S i)). }
  repeat case_decide; simpl; try tauto; by rewrite Hrest.
Qed.

Lemma filter_length_or {A} (P Q : A -> Prop) `{!forall x, Decision (P x)}
    `{!forall x, Decision (Q x)} (l : list A) :
  (forall x, P x -> Q x -> False) ->
  length (filter (λ x, P x ∨ Q x) l) = length (filter P l) + length (filter Q l).
Proof.
  intros Hdisj. induction l as [|x l IH]; [done|].
  rewrite !filter_cons. specialize (Hdisj x).
  repeat case_decide; simpl; try tauto; lia.
Qed.

Lemma populated_original row o filename :
  row !! "original_audio" = Some (original_cell o filename) ->
  populated "original_audio" row <-> o = Failed ∨ o = Succeeded.
Proof.
  intros Hrow. unfold populated. rewrite Hrow.
  destruct o; simpl; try (split; [done|by intros [|]]);
    (destruct (String.eqb_spec (input_path filename) "") as [E|];
       [by apply input_path_not_empty in E|]); simpl; tauto.
Qed.

Lemma populated_augmented row o filename :
  row !! augmented_column st = Some (augmented_cell st o filename) ->
  populated (augmented_column st) row <-> o = Succeeded.
Proof.
  intros Hrow. unfold populated. rewrite Hrow.
  destruct o; simpl; try done.
  destruct (String.eqb_spec (output_path st filename) "") as [E|];
    [by apply output_path_not_empty in E|]. simpl. tauto.
Qed.

End CellFacts.

(** ** Counters and manifest of a whole run *)

Lemma is_wav_row_blank st row : is_wav_row (blank_row st row) = is_wav_row row.
Proof. unfold is_wav_row. by rewrite blank_row_key. Qed.

Lemma filter_wav_blank st rows :
  length (filter (λ row, is_wav_row row) (blank_row st <$> rows))
  = length (filter (λ row, is_wav_row row) rows).
Proof.
  induction rows as [|row rows IH]; [done|]. rewrite fmap_cons, !filter_cons.
  rewrite is_wav_row_blank. destruct (is_wav_row row); simpl; by rewrite IH.
Qed.

(** X1.  At the end of a run each counter is the number of rows with the
    matching outcome (transform succeeded, transform failed, source not found,
    recording too long), and together they count exactly the rows whose
    recording name ends in '.wav'. *)
Theorem counters_count_outcomes (env : Env) (st : Stage) (d : DataFrame)
    (s_end : State) :
  run env st d = Some s_end ->
  success_count s_end = occurrences Succeeded (outcomes env st 0 (df_rows d))
  ∧ failed_count s_end = occurrences Failed (outcomes env st 0 (df_rows d))
  ∧ not_found_count s_end = occurrences NotFound (outcomes env st 0 (df_rows d))
  ∧ deleted_count s_end = occurrences TooLong (outcomes env st 0 (df_rows d))
  ∧ counter_sum s_end = length (filter (λ row, is_wav_row row) (df_rows d)).
Proof.
  unfold run. intros Hrun.
  pose proof (iterrows_tally env st _ _ _ _ Hrun) as (H1 & H2 & H3 & H4).
  pose proof (iterrows_counter_sum_exact env st _ _ _ _ Hrun) as H5.
  rewrite add_columns_rows in *. rewrite outcomes_blank in *.
  rewrite filter_wav_blank in H5. simpl in *. by repeat split.
Qed.

Lemma counters_count_outcomes_witness :
  success_count (Demo.final Volume)
    = occurrences Succeeded (outcomes Demo.env Volume 0 (df_rows Demo.manifest))
  ∧ failed_count (Demo.final Volume)
    = occurrences Failed (outcomes Demo.env Volume 0 (df_rows Demo.manifest))
  ∧ not_found_count (Demo.final Volume)
    = occurrences NotFound (outcomes Demo.env Volume 0 (df_rows Demo.manifest))
  ∧ deleted_count (Demo.final Volume)
    = occurrences TooLong (outcomes Demo.env Volume 0 (df_rows Demo.manifest))
  ∧ counter_sum (Demo.final Volume)
    = length (filter (λ row, is_wav_row row) (df_rows Demo.manifest)).
Proof.
  apply (counters_count_outcomes Demo.env Volume Demo.manifest (Demo.final Volume)).
  vm_compute. reflexivity.
Defined.

(** X2.  In the manifest left by a run the two path cells of every row follow
    from the outcome of that row alone: 'original_audio' holds the source path
    when the transform was tried (whether it succeeded or failed) and is blank
    otherwise; the derived-path cell holds the output path when the transform
    succeeded and is blank otherwise.  The name of the row is its
    'Recording Name' cell, or 'nan' where that cell is blank. *)
Theorem final_cells_follow_outcome (env : Env) (st : Stage) (d : DataFrame)
    (s_end : State) (i : nat) (row : gmap string string) :
  run env st d = Some s_end ->
  df_rows d !! i = Some row ->
  exists filename o,
    recording_name d row = Some filename
    ∧ filename = default "nan" (row !! "Recording Name")
    ∧ outcome env st i row = Some o
    ∧ df_at i "original_audio" (df s_end)
      = Some (match o with
              | Failed | Succeeded => input_path filename
              | Ignored | NotFound | TooLong => ""
              end)
    ∧ df_at i (augmented_column st) (df s_end)
      = Some (match o with
              | Succeeded => output_path st filename
              | Ignored | NotFound | TooLong | Failed => ""
              end).
Proof.
  intros Hrun Hrow.
  destruct (run_row_report env st d s_end i row Hrun Hrow) as (o & Hk & Ho & Ha & Hb).
  exists (name_of row), o. rewrite Ha, Hb. by destruct o.
Qed.

Lemma final_cells_follow_outcome_witness :
  (exists filename o,
    recording_name Demo.manifest (Demo.row "a.wav") = Some filename
    ∧ filename = default "nan" (Demo.row "a.wav" !! "Recording Name")
    ∧ outcome Demo.env Volume 0 (Demo.row "a.wav") = Some o
    ∧ df_at 0 "original_audio" (df (Demo.final Volume))
      = Some (match o with
              | Failed | Succeeded => input_path filename
              | Ignored | NotFound | TooLong => ""
              end)
    ∧ df_at 0 (augmented_column Volume) (df (Demo.final Volume))
      = Some (match o with
              | Succeeded => output_path Volume filename
              | Ignored | NotFound | TooLong | Failed => ""
              end)).
Proof.
  apply (final_cells_follow_outcome Demo.env Volume Demo.manifest (Demo.final Volume)
           0 (Demo.row "a.wav")); vm_compute; reflexivity.
Defined.

(** X3.  The summary agrees with the manifest: the number of rows whose
    derived-path cell is filled equals the success counter, and the number of
    rows whose 'original_audio' cell is filled equals successes plus failures. *)
Theorem populated_cells_match_counters (env : Env) (st : Stage) (d : DataFrame)
    (s_end : State) :
  run env st d = Some s_end ->
  length (filter (λ row, populated (augmented_column st) row) (df_rows (df s_end)))
    = success_count s_end
  ∧ length (filter (λ row, populated "original_audio" row) (df_rows (df s_end)))
    = success_count s_end + failed_count s_end.
Proof.
  intros Hrun.
  pose proof (iterrows_tally env st _ _ _ _ Hrun) as (H1 & H2 & _).
  rewrite add_columns_rows, outcomes_blank in H1, H2. simpl in H1, H2.
  destruct (run_preserves env st d s_end Hrun) as (_ & Hlen & _).
  assert (forall i row' x,
            df_rows (df s_end) !! i = Some row' ->
            outcomes env st 0 (df_rows d) !! i = Some x ->
            exists filename o, x = Some o
              ∧ row' !! "original_audio" = Some (original_cell o filename)
              ∧ row' !! augmented_column st = Some (augmented_cell st o filename))
    as Hpt.
  { intros i row' x Hrow' Hx.
    destruct (lookup_lt_is_Some_2 (df_rows d) i) as [row Hrow].
    { rewrite <- Hlen. by eapply lookup_lt_Some. }
    rewrite (outcomes_lookup env st _ 0 i row Hrow) in Hx. injection Hx as <-.
    destruct (run_row_report env st d s_end i row Hrun Hrow)
      as (o & _ & Ho & Ha & Hb).
    exists (name_of row), o. unfold df_at in Ha, Hb. rewrite Hrow' in Ha, Hb. by simpl in *. }
  split.
  - rewrite H1. unfold occurrences. apply filter_length_pointwise.
    + by rewrite outcomes_length.
    + intros i row' x Hrow' Hx.
      destruct (Hpt i row' x Hrow' Hx) as (filename & o & -> & _ & Hb).
      rewrite (populated_augmented st row' o filename Hb). split; congruence.
  - rewrite H1, H2. unfold occurrences.
    rewrite <- filter_length_or by (intros x -> [=]).
    apply filter_length_pointwise.
    + by rewrite outcomes_length.
    + intros i row' x Hrow' Hx.
      destruct (Hpt i row' x Hrow' Hx) as (filename & o & -> & Ha & _).
      rewrite (populated_original row' o filename Ha).
      split; intros [H|H]; [right|left|right|left]; congruence.
Qed.

Lemma populated_cells_match_counters_witness :
  length (filter (λ row, populated (augmented_column Noise) row)
            (df_rows (df (Demo.final Noise))))
    = success_count (Demo.final Noise)
  ∧ length (filter (λ row, populated "original_audio" row)
              (df_rows (df (Demo.final Noise))))
    = success_count (Demo.final Noise) + failed_count (Demo.final Noise).
Proof.
  apply (populated_cells_match_counters Demo.env Noise Demo.manifest (Demo.final Noise)).
  vm_compute. reflexivity.
Defined.

(** ** How a script ends *)

Section EndingFacts.

Variables (env : Env) (st : Stage).

Implicit Types (s : State) (row : gmap string string).

Lemma process_row_no_name s idx row :
  recording_name (df s) row = None -> process_row env st s idx row = None.
Proof. intros H. unfold process_row. by rewrite H. Qed.

Lemma process_row_columns s idx row s' :
  process_row env st s idx row = Some s' -> df_columns (df s') = df_columns (df s).
Proof. intros H. by apply process_row_frame in H as (H & _). Qed.

Lemma iterrows_no_column rows : forall s idx,
  "Recording Name" ∉ df_columns (df s) ->
  (exists row, row ∈ rows ∧ row !! "Recording Name" = None) ->
  iterrows env st s idx rows = None.
Proof.
  induction rows as [|r rows IH]; intros s idx Hcol (row & Hin & Hk).
  - by apply elem_of_nil in Hin.
  - simpl. destruct (process_row env st s idx r) as [s1|] eqn:Hr; [|done].
    cbn [mbind option_bind]. apply elem_of_cons in Hin as [->|Hin].
    + rewrite process_row_no_name in Hr; [done|].
      unfold recording_name. rewrite Hk. by rewrite decide_False.
    + apply IH; [|by exists row].
      by rewrite (process_row_columns _ _ _ _ Hr).
Qed.

(** A row with a blank name cell, in a frame with the name column, is passed
    over. *)
Lemma process_row_blank_name s idx row :
  "Recording Name" ∈ df_columns (df s) ->
  row !! "Recording Name" = None ->
  process_row env st s idx row = Some s.
Proof.
  intros Hcol Hk. unfold process_row, recording_name. rewrite Hk.
  by rewrite decide_True.
Qed.

Lemma process_row_completes s idx row :
  is_Some (recording_name (df s) row) ->
  (probes_duration st = true -> forall i path, is_Some (ffprobe env i path)) ->
  (forall i filename, (transform env st i filename).2 = None ->
     handler_returns env st i filename = true) ->
  is_Some (process_row env st s idx row).
Proof.
  intros [filename Hname] Hprobe Hh. unfold process_row. rewrite Hname.
  cbn [mbind option_bind].
  destruct (negb (PyStr.endswith filename ".wav")); [done|].
  destruct (negb (path_exists env idx (input_path filename))); [done|].
  destruct (probes_duration st).
  - destruct (Hprobe eq_refl idx (input_path filename)) as [out ->].
    cbn [mbind option_bind]. destruct (F64.gtb _ _); [done|].
    apply augment_row_returns, Hh.
  - apply augment_row_returns, Hh.
Qed.

Lemma iterrows_completes rows : forall s idx,
  (forall row, row ∈ rows -> is_Some (recording_name (df s) row)) ->
  (probes_duration st = true -> forall i path, is_Some (ffprobe env i path)) ->
  (forall i filename, (transform env st i filename).2 = None ->
     handler_returns env st i filename = true) ->
  is_Some (iterrows env st s idx rows).
Proof.
  induction rows as [|row rows IH]; intros s idx Hkey Hprobe Hh; simpl; [done|].
  destruct (process_row_completes s idx row) as [s1 Hs1]; [by apply Hkey; left|done..|].
  rewrite Hs1. cbn [mbind option_bind]. apply IH; [|done..].
  intros r Hr.
  rewrite (recording_name_columns _ _ _ (process_row_columns _ _ _ _ Hs1)).
  apply Hkey. by right.
Qed.

(** An iteration that raises ends the loop, wherever it is. *)
Lemma iterrows_raises rows : forall s idx i row,
  rows !! i = Some row ->
  (forall s1, process_row env st s1 (idx + i) row = None) ->
  iterrows env st s idx rows = None.
Proof.
  induction rows as [|r rows IH]; intros s idx i row Hi Hrow; [done|].
  simpl. destruct i as [|i]; simpl in Hi.
  - injection Hi as ->. rewrite Nat.add_0_r in Hrow. by rewrite Hrow.
  - destruct (process_row env st s idx r) as [s1|]; [|done].
    cbn [mbind option_bind]. apply (IH s1 (S idx) i row Hi).
    intros s2. by replace (S idx + i) with (idx + S i) by lia.
Qed.

End EndingFacts.

(** X4.  A loaded manifest without a 'Recording Name' column makes the script
    end with a traceback (exit status 1) before the manifest is written, as
    soon as it has a row, whatever the rows hold. *)
Theorem missing_name_aborts_without_manifest (env : Env) (st : Stage)
    (d : DataFrame) (row : gmap string string) :
  makedirs_ok env (augmented_folder st) = true ->
  manifest_exists env (csv_path st) = true ->
  read_csv env (csv_path st) = Some d ->
  "Recording Name" ∉ df_columns d ->
  row ∈ df_rows d ->
  row !! "Recording Name" = None ->
  run env st d = None
  ∧ script env st = Traceback
  ∧ exit_status (script env st) = 1%Z
  ∧ written_manifest st (script env st) = None.
Proof.
  intros Hdir Hcsv Hread Hcol Hin Hk.
  assert (run env st d = None) as Hrun.
  { unfold run. apply iterrows_no_column.
    - simpl. intros [H|[H|H]]%add_columns_elem; [done..|]. by destruct st.
    - exists (blank_row st row). split.
      + rewrite add_columns_rows. by apply list_elem_of_fmap_2.
      + by rewrite blank_row_key. }
  split; [done|].
  assert (script env st = Traceback) as ->; [|done].
  unfold script. by rewrite Hdir, Hcsv, Hread, Hrun.
Qed.

Lemma missing_name_aborts_without_manifest_witness :
  run World.nameless Speed World.nameless_manifest = None
  ∧ script World.nameless Speed = Traceback
  ∧ exit_status (script World.nameless Speed) = 1%Z
  ∧ written_manifest Speed (script World.nameless Speed) = None.
Proof.
  apply (missing_name_aborts_without_manifest World.nameless Speed
           World.nameless_manifest {[ "File" := "a.wav" ]}).
  - reflexivity.
  - reflexivity.
  - reflexivity.
  - simpl. intros H. apply list_elem_of_singleton in H. discriminate H.
  - by left.
  - reflexivity.
Defined.

(** X5.  A run is stopped by a single row only when a failure handler itself
    raises: when the folder can be made, the manifest loads and has the name
    column, the probe tool can be started where the stage probes, the handler
    of every failing transform returns (it always does in the noise and
    low-pass stages), and the manifest can be written, the script completes
    with exit status 0 and writes the manifest, whatever the existence
    checks, the transcoder and the audio library answer. *)
Theorem script_completes (env : Env) (st : Stage) (d : DataFrame) :
  makedirs_ok env (augmented_folder st) = true ->
  manifest_exists env (csv_path st) = true ->
  read_csv env (csv_path st) = Some d ->
  "Recording Name" ∈ df_columns d ->
  (probes_duration st = true -> forall i path, is_Some (ffprobe env i path)) ->
  (forall i filename, (transform env st i filename).2 = None ->
     handler_returns env st i filename = true) ->
  to_csv_ok env (output_csv st) = true ->
  exists s, script env st = Completed s
    ∧ run env st d = Some s
    ∧ exit_status (script env st) = 0%Z
    ∧ written_manifest st (script env st) = Some (output_csv st, df s).
Proof.
  intros Hdir Hcsv Hread Hcol Hprobe Hh Hwrite.
  destruct (iterrows_completes env st (df_rows (add_columns st d))
              (init_state st d) 0) as [s Hs]; [|done..|].
  { intros row Hin. simpl. unfold recording_name.
    destruct (row !! "Recording Name"); [done|]. rewrite decide_True; [done|].
    destruct (add_columns_prefix st d) as [k ->]. apply elem_of_app. by left. }
  exists s. assert (script env st = Completed s) as ->; [|done].
  unfold script, run. by rewrite Hdir, Hcsv, Hread, Hs, Hwrite.
Qed.

Lemma script_completes_witness :
  exists s, script World.blank_name Volume = Completed s
    ∧ run World.blank_name Volume World.blank_name_manifest = Some s
    ∧ exit_status (script World.blank_name Volume) = 0%Z
    ∧ written_manifest Volume (script World.blank_name Volume)
      = Some (output_csv Volume, df s).
Proof.
  apply (script_completes World.blank_name Volume World.blank_name_manifest).
  - reflexivity.
  - reflexivity.
  - reflexivity.
  - by left.
  - intros _ i path. by eexists.
  - intros i filename _. reflexivity.
  - reflexivity.
Defined.

(** X20.  A row whose 'Recording Name' cell is blank, in a manifest that has
    the column, is read under the name 'nan': the iteration passes it over
    without touching a counter, a cell or the outside world, and at the end
    of the run both its path cells are blank. *)
Theorem blank_name_row_is_passed_over (env : Env) (st : Stage) (d : DataFrame)
    (s_end : State) (i : nat) (row : gmap string string) :
  run env st d = Some s_end ->
  df_rows d !! i = Some row ->
  row !! "Recording Name" = None ->
  "Recording Name" ∈ df_columns d
  ∧ recording_name d row = Some "nan"
  ∧ outcome env st i row = Some Ignored
  ∧ (forall s, "Recording Name" ∈ df_columns (df s) ->
       process_row env st s i (blank_row st row) = Some s)
  ∧ df_at i "original_audio" (df s_end) = Some ""
  ∧ df_at i (augmented_column st) (df s_end) = Some "".
Proof.
  intros Hrun Hrow Hk.
  destruct (run_row_report env st d s_end i row Hrun Hrow) as (o & Hname & Ho & Ha & Hb).
  assert (name_of row = "nan") as Hn by (unfold name_of; by rewrite Hk).
  rewrite Hn in *.
  assert (outcome env st i row = Some Ignored) as Hout.
  { unfold outcome. by rewrite Hn. }
  assert (o = Ignored) as -> by congruence.
  split.
  { unfold recording_name in Hname. rewrite Hk in Hname. by case_decide. }
  split; [done|]. split; [done|]. split; [|done].
  intros s Hcol. apply process_row_blank_name; [done|]. by rewrite blank_row_key.
Qed.

Lemma blank_name_row_is_passed_over_witness :
  "Recording Name" ∈ df_columns World.blank_name_manifest
  ∧ recording_name World.blank_name_manifest {[ "Verse" := "2" ]} = Some "nan"
  ∧ outcome World.blank_name Noise 1 {[ "Verse" := "2" ]} = Some Ignored
  ∧ (forall s, "Recording Name" ∈ df_columns (df s) ->
       process_row World.blank_name Noise s 1 (blank_row Noise {[ "Verse" := "2" ]})
       = Some s)
  ∧ df_at 1 "original_audio"
      (df (default (init_state Noise World.blank_name_manifest)
             (run World.blank_name Noise World.blank_name_manifest))) = Some ""
  ∧ df_at 1 (augmented_column Noise)
      (df (default (init_state Noise World.blank_name_manifest)
             (run World.blank_name Noise World.blank_name_manifest))) = Some "".
Proof.
  apply (blank_name_row_is_passed_over World.blank_name Noise World.blank_name_manifest
           (default (init_state Noise World.blank_name_manifest)
              (run World.blank_name Noise World.blank_name_manifest))
           1 {[ "Verse" := "2" ]}); vm_compute; reflexivity.
Defined.

(** X21.  In the speed and volume stages the handler of a failed transcode
    decodes the captured standard error before it counts the failure: when
    the decoding raises, the exception leaves the loop, the script ends with
    a traceback (exit status 1) and no manifest is written.  The noise and
    low-pass stages have no such handler. *)
Theorem undecodable_stderr_aborts (env : Env) (st : Stage) (d : DataFrame)
    (i : nat) (row : gmap string string) (filename : string) :
  makedirs_ok env (augmented_folder st) = true ->
  manifest_exists env (csv_path st) = true ->
  read_csv env (csv_path st) = Some d ->
  df_rows d !! i = Some row ->
  row !! "Recording Name" = Some filename ->
  reaches_transform env st i filename = true ->
  (transform env st i filename).2 = None ->
  handler_returns env st i filename = false ->
  (st = Speed ∨ st = Volume)
  ∧ (forall s, process_row env st s i (blank_row st row) = None)
  ∧ run env st d = None
  ∧ script env st = Traceback
  ∧ exit_status (script env st) = 1%Z
  ∧ written_manifest st (script env st) = None.
Proof.
  intros Hdir Hcsv Hread Hrow Hk Hr Hfail Hh.
  assert (forall s, process_row env st s i (blank_row st row) = None) as Hstep.
  { intros s. rewrite (process_row_reaches env st s i _ filename); [|by rewrite blank_row_key|done].
    by apply augment_row_raises. }
  assert (run env st d = None) as Hrun.
  { unfold run. apply (iterrows_raises env st _ _ 0 i (blank_row st row)); [|done].
    by rewrite add_columns_rows, list_lookup_fmap, Hrow. }
  split; [by destruct st; auto|]. split; [done|]. split; [done|].
  assert (script env st = Traceback) as ->; [|done].
  unfold script. by rewrite Hdir, Hcsv, Hread, Hrun.
Qed.

Lemma undecodable_stderr_aborts_witness :
  (Volume = Speed ∨ Volume = Volume)
  ∧ (forall s, process_row World.garbled_stderr Volume s 3
                 (blank_row Volume (Demo.row "odd.wav")) = None)
  ∧ run World.garbled_stderr Volume Demo.manifest = None
  ∧ script World.garbled_stderr Volume = Traceback
  ∧ exit_status (script World.garbled_stderr Volume) = 1%Z
  ∧ written_manifest Volume (script World.garbled_stderr Volume) = None.
Proof.
  apply (undecodable_stderr_aborts World.garbled_stderr Volume Demo.manifest 3
           (Demo.row "odd.wav") "odd.wav"); vm_compute; reflexivity.
Defined.

(** ** External actions of a run *)

Section TraceFacts.

Variables (env : Env) (st : Stage).

Implicit Types (s : State) (row : gmap string string) (ev : Event).

Lemma transform_events idx filename ev :
  ev ∈ (transform env st idx filename).1 ->
  (exists f, ev = EvFfmpeg (input_path filename) f (output_path st filename))
  ∨ ev = EvSfRead (input_path filename)
  ∨ (exists data sr, ev = EvSfWrite (output_path st filename) data sr).
Proof.
  unfold transform. destruct st; repeat case_match; simpl;
    rewrite ?elem_of_cons, ?elem_of_nil; intros Hev;
    repeat (destruct Hev as [Hev|Hev]); try done; subst; eauto 6.
Qed.

(** A name that ends in '.wav' was read from the cell of the row. *)
Lemma recording_name_wav d row filename :
  recording_name d row = Some filename ->
  PyStr.endswith filename ".wav" = true ->
  row !! "Recording Name" = Some filename.
Proof.
  unfold recording_name. destruct (row !! "Recording Name"); [done|].
  case_decide; [|done]. by intros [= <-].
Qed.

Lemma process_row_trace s idx row s' ev :
  process_row env st s idx row = Some s' ->
  ev ∈ trace s' ->
  ev ∈ trace s
  ∨ exists filename,
      row !! "Recording Name" = Some filename
      ∧ PyStr.endswith filename ".wav" = true
      ∧ path_exists env idx (input_path filename) = true
      ∧ (ev = EvProbe (input_path filename)
         ∨ ev ∈ (transform env st idx filename).1).
Proof.
  intros H Hev. apply process_row_cases in H as (filename & Hname & [H|[H|[H|H]]]).
  - destruct H as [_ ->]. by left.
  - destruct H as (_ & _ & ->). by left.
  - destruct H as (He & Hx & _ & ->). simpl in Hev.
    pose proof (recording_name_wav _ _ _ Hname He) as Hk.
    apply elem_of_app in Hev as [Hev|Hev]; [by left|].
    apply list_elem_of_singleton in Hev. right. exists filename. by auto.
  - destruct H as (Hr & H). rewrite (augment_row_trace _ _ _ _ _ _ H) in Hev.
    simpl in Hev. unfold reaches_transform in Hr.
    apply andb_true_iff in Hr as [[He Hx]%andb_true_iff _].
    pose proof (recording_name_wav _ _ _ Hname He) as Hk.
    apply elem_of_app in Hev as [Hev|Hev].
    + apply elem_of_app in Hev as [Hev|Hev]; [by left|].
      right. exists filename. repeat split; try done. left.
      unfold probe_events in Hev. destruct (probes_duration st).
      * by apply list_elem_of_singleton in Hev.
      * by apply elem_of_nil in Hev.
    + right. exists filename. by auto.
Qed.

Lemma iterrows_trace rows : forall s idx s' ev,
  iterrows env st s idx rows = Some s' ->
  ev ∈ trace s' ->
  ev ∈ trace s
  ∨ exists i row filename,
      rows !! i = Some row
      ∧ row !! "Recording Name" = Some filename
      ∧ PyStr.endswith filename ".wav" = true
      ∧ path_exists env (idx + i) (input_path filename) = true
      ∧ (ev = EvProbe (input_path filename)
         ∨ ev ∈ (transform env st (idx + i) filename).1).
Proof.
  induction rows as [|r rows IH]; intros s idx s' ev H Hev; simpl in H.
  - injection H as <-. by left.
  - destruct (process_row env st s idx r) as [s1|] eqn:Hr; [|done].
    cbn [mbind option_bind] in H.
    destruct (IH s1 (S idx) s' ev H Hev) as [Hin|(i & row & filename & Hi & Hrest)].
    + destruct (process_row_trace s idx r s1 ev Hr Hin) as [?|(filename & Hrest)];
        [by left|].
      right. exists 0, r, filename. by rewrite Nat.add_0_r.
    + right. exists (S i), row, filename. split; [done|].
      by replace (idx + S i) with (S idx + i) by lia.
Qed.

End TraceFacts.

(** X6.  A run touches nothing but the sources of its qualifying rows: every
    external action in its log belongs to some manifest row whose name ends in
    '.wav' and whose source file exists, and it is a probe, a transcode or a
    decode of that row's source path, or a write to that row's output path. *)
Theorem run_actions_belong_to_rows (env : Env) (st : Stage) (d : DataFrame)
    (s_end : State) (ev : Event) :
  run env st d = Some s_end ->
  ev ∈ trace s_end ->
  exists i row filename,
    df_rows d !! i = Some row
    ∧ row !! "Recording Name" = Some filename
    ∧ PyStr.endswith filename ".wav" = true
    ∧ path_exists env i (input_path filename) = true
    ∧ (ev = EvProbe (input_path filename)
       ∨ (exists f, ev = EvFfmpeg (input_path filename) f (output_path st filename))
       ∨ ev = EvSfRead (input_path filename)
       ∨ (exists data sr, ev = EvSfWrite (output_path st filename) data sr)).
Proof.
  unfold run. intros Hrun Hev.
  destruct (iterrows_trace env st _ _ _ _ ev Hrun Hev)
    as [Hin|(i & row & filename & Hi & Hk & He & Hx & Hcase)].
  { by apply elem_of_nil in Hin. }
  rewrite add_columns_rows, list_lookup_fmap in Hi.
  destruct (df_rows d !! i) as [r|] eqn:Hr; [|done]. injection Hi as <-.
  rewrite blank_row_key in Hk. exists i, r, filename.
  repeat split; try done. destruct Hcase as [->|Hcase]; [by left|].
  right. by apply (transform_events env st (0 + i)).
Qed.

Lemma run_actions_belong_to_rows_witness :
  exists i row filename,
    df_rows Demo.manifest !! i = Some row
    ∧ row !! "Recording Name" = Some filename
    ∧ PyStr.endswith filename ".wav" = true
    ∧ path_exists Demo.env i (input_path filename) = true
    ∧ (EvProbe "filteredforwhisper/long.wav" = EvProbe (input_path filename)
       ∨ (exists f, EvProbe "filteredforwhisper/long.wav"
                    = EvFfmpeg (input_path filename) f (output_path Volume filename))
       ∨ EvProbe "filteredforwhisper/long.wav" = EvSfRead (input_path filename)
       ∨ (exists data sr, EvProbe "filteredforwhisper/long.wav"
                          = EvSfWrite (output_path Volume filename) data sr)).
Proof.
  apply (run_actions_belong_to_rows Demo.env Volume Demo.manifest (Demo.final Volume)).
  - vm_compute. reflexivity.
  - vm_compute. do 2 right. by left.
Defined.

(** ** Names and paths of the derived files *)

Section PathFacts.

Implicit Types (s t filename : string).

Lemma startswith_differ s t p :
  PyStr.startswith s p = true -> PyStr.startswith t p = false -> s ≠ t.
Proof. intros Hs Ht ->. congruence. Qed.

Lemma startswith_app p t : PyStr.startswith (p +:+ t) p = true.
Proof.
  induction p as [|c p IH]; [done|].
  change (String c p +:+ t) with (String c (p +:+ t)).
  cbn [PyStr.startswith]. by rewrite Ascii.eqb_refl.
Qed.

Lemma strip_suffix_app s ext :
  PyStr.endswith s ext = true -> s = strip_suffix s ext +:+ ext.
Proof.
  induction s as [|c s IH].
  - cbn [PyStr.endswith strip_suffix].
    destruct (String.eqb_spec "" ext) as [<-|]; [reflexivity|done].
  - rewrite endswith_cons. cbn [strip_suffix].
    destruct (String.eqb_spec (String c s) ext) as [<-|Hne]; [reflexivity|].
    simpl. intros He.
    change (String c (strip_suffix s ext) +:+ ext)
      with (String c (strip_suffix s ext +:+ ext)).
    f_equal. by apply IH.
Qed.

Lemma replacement_length st : String.length (replacement st) = String.length (suffix st) + 4.
Proof. by destruct st. Qed.

Lemma output_name_length st filename :
  String.length (output_name st filename)
  = String.length filename + PyStr.count filename ".wav" * String.length (suffix st).
Proof.
  unfold output_name. rewrite replace_length by (rewrite replacement_length; lia).
  rewrite replacement_length. f_equal. f_equal. lia.
Qed.

Lemma output_name_longer st filename :
  PyStr.endswith filename ".wav" = true ->
  String.length filename < String.length (output_name st filename).
Proof.
  intros He. rewrite output_name_length. apply count_endswith_pos in He.
  assert (2 <= String.length (suffix st)) by (destruct st; simpl; lia). nia.
Qed.

Lemma output_name_not_slash st filename :
  PyStr.startswith filename "/" = false ->
  PyStr.startswith (output_name st filename) "/" = false.
Proof.
  unfold output_name. intros H. destruct filename as [|c s]; [done|].
  destruct (PyStr.startswith (String c s) ".wav") eqn:Hp.
  - apply startswith_wav in Hp as [t ->]. rewrite replace_wav_step. by destruct st.
  - by rewrite replace_other_step.
Qed.

End PathFacts.

(** X7.  A name that ends in '.wav' gives a derived name that ends in '.wav'
    too and is longer by the length of the transform suffix for each occurrence
    of '.wav' in it (at least one). *)
Theorem output_name_keeps_extension (st : Stage) (filename : string) :
  PyStr.endswith filename ".wav" = true ->
  PyStr.endswith (output_name st filename) ".wav" = true
  ∧ 1 <= PyStr.count filename ".wav"
  ∧ String.length (output_name st filename)
    = String.length filename + PyStr.count filename ".wav" * String.length (suffix st).
Proof.
  intros He. split; [|split].
  - unfold output_name. apply replace_endswith; [by destruct st|done].
  - by apply count_endswith_pos.
  - apply output_name_length.
Qed.

Lemma output_name_keeps_extension_witness :
  PyStr.endswith (output_name Lowpass "take.wav.old.wav") ".wav" = true
  ∧ 1 <= PyStr.count "take.wav.old.wav" ".wav"
  ∧ String.length (output_name Lowpass "take.wav.old.wav")
    = String.length "take.wav.old.wav"
      + PyStr.count "take.wav.old.wav" ".wav" * String.length (suffix Lowpass).
Proof.
  apply (output_name_keeps_extension Lowpass "take.wav.old.wav"). reflexivity.
Defined.

(** X8.  No stage writes over its own source: for a name ending in '.wav' the
    output path differs from the input path.  For a name that does not start
    with '/', the source is read from 'filteredforwhisper/' and the derived
    file is written under the stage's own folder; a name starting with '/' is
    taken as it is, both folders being dropped by [os.path.join]. *)
Theorem output_path_differs_from_input (st : Stage) (filename : string) :
  PyStr.endswith filename ".wav" = true ->
  output_path st filename ≠ input_path filename
  ∧ (PyStr.startswith filename "/" = false ->
     input_path filename = filtered_folder +:+ "/" +:+ filename
     ∧ output_path st filename = augmented_folder st +:+ "/" +:+ output_name st filename)
  ∧ (PyStr.startswith filename "/" = true ->
     input_path filename = filename
     ∧ output_path st filename = output_name st filename).
Proof.
  intros He.
  assert (PyStr.startswith filename "/" = false ->
          input_path filename = filtered_folder +:+ "/" +:+ filename
          ∧ output_path st filename
            = augmented_folder st +:+ "/" +:+ output_name st filename) as Hrel.
  { intros Hs. unfold input_path, output_path, os_path_join.
    rewrite Hs, (output_name_not_slash st filename Hs). by destruct st. }
  assert (PyStr.startswith filename "/" = true ->
          input_path filename = filename
          ∧ output_path st filename = output_name st filename) as Habs.
  { intros Hs. unfold input_path, output_path, os_path_join. rewrite Hs.
    unfold output_name. by rewrite replace_startswith_slash. }
  split; [|by split].
  destruct (PyStr.startswith filename "/") eqn:Hs.
  - destruct (Habs eq_refl) as [-> ->]. intros Heq.
    pose proof (output_name_longer st filename He) as Hlen. rewrite Heq in Hlen. lia.
  - destruct (Hrel eq_refl) as [-> ->].
    apply (startswith_differ _ _ "a"); by destruct st.
Qed.

Lemma output_path_differs_from_input_witness :
  output_path Speed "/srv/a.wav" ≠ input_path "/srv/a.wav"
  ∧ (PyStr.startswith "/srv/a.wav" "/" = false ->
     input_path "/srv/a.wav" = filtered_folder +:+ "/" +:+ "/srv/a.wav"
     ∧ output_path Speed "/srv/a.wav"
       = augmented_folder Speed +:+ "/" +:+ output_name Speed "/srv/a.wav")
  ∧ (PyStr.startswith "/srv/a.wav" "/" = true ->
     input_path "/srv/a.wav" = "/srv/a.wav"
     ∧ output_path Speed "/srv/a.wav" = output_name Speed "/srv/a.wav").
Proof.
  apply (output_path_differs_from_input Speed "/srv/a.wav"). reflexivity.
Defined.

(** X9.  The conversion script renames by the final extension only: for a
    name ending in '.webm', whatever dots it holds before, the output name is
    the name with that final '.webm' replaced by '.wav'. *)
Theorem convert_output_name_final_extension (filename : string) :
  PyStr.endswith filename ".webm" = true ->
  filename = strip_suffix filename ".webm" +:+ ".webm"
  ∧ Convert.output_name filename = strip_suffix filename ".webm" +:+ ".wav"
  ∧ PyStr.endswith (Convert.output_name filename) ".wav" = true.
Proof.
  intros He. split; [by apply strip_suffix_app|].
  assert (Convert.output_name filename = strip_suffix filename ".webm" +:+ ".wav") as ->.
  { unfold Convert.output_name, PyStr.rsplit1_head. by rewrite before_last_webm. }
  split; [done|]. by apply endswith_app.
Qed.

Lemma convert_output_name_final_extension_witness :
  "a.webm.b.webm" = strip_suffix "a.webm.b.webm" ".webm" +:+ ".webm"
  ∧ Convert.output_name "a.webm.b.webm" = strip_suffix "a.webm.b.webm" ".webm" +:+ ".wav"
  ∧ PyStr.endswith (Convert.output_name "a.webm.b.webm") ".wav" = true.
Proof.
  apply (convert_output_name_final_extension "a.webm.b.webm"). reflexivity.
Defined.

(** ** Chained stages *)

Section ChainFacts.

Lemma add_columns_original st d : "original_audio" ∈ df_columns (add_columns st d).
Proof.
  unfold add_columns, df_set_column. simpl.
  destruct (decide ("original_audio" ∈ df_columns d)); simpl;
    case_decide; rewrite ?elem_of_app, ?list_elem_of_singleton; tauto.
Qed.

Lemma add_columns_present st d :
  "original_audio" ∈ df_columns d ->
  df_columns (add_columns st d)
  = if decide (augmented_column st ∈ df_columns d) then df_columns d
    else df_columns d ++ [augmented_column st].
Proof.
  intros Hin. unfold add_columns, df_set_column. simpl.
  by rewrite (decide_True _ _ Hin).
Qed.

Lemma df_at_add_columns st d i c :
  c ≠ "original_audio" -> c ≠ augmented_column st ->
  df_at i c (add_columns st d) = df_at i c d.
Proof.
  intros Ho Ha. unfold df_at. rewrite add_columns_rows, list_lookup_fmap.
  destruct (df_rows d !! i) as [row|]; [|done]. simpl. by apply blank_row_other.
Qed.

Lemma run_keeps_other_cells env st d s_end i c :
  run env st d = Some s_end ->
  c ≠ "original_audio" -> c ≠ augmented_column st ->
  df_at i c (df s_end) = df_at i c d.
Proof.
  unfold run. intros Hrun Ho Ha.
  apply iterrows_frame in Hrun as (_ & _ & _ & Hcells).
  rewrite (Hcells i c Ho Ha). by apply df_at_add_columns.
Qed.

Lemma augmented_columns_distinct st1 st2 :
  st1 ≠ st2 -> augmented_column st1 ≠ augmented_column st2.
Proof. by destruct st1, st2. Qed.

End ChainFacts.

(** X10.  A stage that loads a manifest which already has an 'original_audio'
    column, as every manifest written by a stage has, keeps the derived-path
    column of every other stage cell by cell, and adds to the columns at most
    its own derived-path column, never a second 'original_audio'. *)
Theorem later_stage_keeps_earlier_paths (env : Env) (st1 st2 : Stage)
    (d : DataFrame) (s : State) :
  st1 ≠ st2 ->
  "original_audio" ∈ df_columns d ->
  read_csv env (csv_path st2) = Some d ->
  script env st2 = Completed s ->
  (forall i, df_at i (augmented_column st1) (df s) = df_at i (augmented_column st1) d)
  ∧ df_columns (df s)
    = (if decide (augmented_column st2 ∈ df_columns d) then df_columns d
       else df_columns d ++ [augmented_column st2])
  ∧ "original_audio" ∈ df_columns (df s).
Proof.
  intros Hst Hin Hread Hs.
  destruct (script_completed env st2 s Hs) as (d2 & Hread2 & Hrun).
  rewrite Hread in Hread2. injection Hread2 as <-.
  destruct (run_preserves env st2 d s Hrun) as (Hcols & _ & _).
  split; [|split].
  - intros i. apply (run_keeps_other_cells env st2); [done| |].
    + apply columns_distinct.
    + by apply augmented_columns_distinct.
  - rewrite Hcols. by apply add_columns_present.
  - rewrite Hcols. apply add_columns_original.
Qed.

Lemma later_stage_keeps_earlier_paths_witness :
  (forall i, df_at i (augmented_column Volume) (df World.chained_final)
             = df_at i (augmented_column Volume) (df (Demo.final Volume)))
  ∧ df_columns (df World.chained_final)
    = (if decide (augmented_column Noise ∈ df_columns (df (Demo.final Volume)))
       then df_columns (df (Demo.final Volume))
       else df_columns (df (Demo.final Volume)) ++ [augmented_column Noise])
  ∧ "original_audio" ∈ df_columns (df World.chained_final).
Proof.
  apply (later_stage_keeps_earlier_paths World.chained Volume Noise
           (df (Demo.final Volume)) World.chained_final).
  - discriminate.
  - vm_compute. right. by left.
  - reflexivity.
  - vm_compute. reflexivity.
Defined.

(** ** The conversion script as a whole *)

Section ConvertFacts.

Variable env : Env.

Implicit Types (s : Convert.CState) (filename : string).

Lemma convert_file_cases s k filename :
  (PyStr.endswith filename ".webm" = false ∧ Convert.convert_file env s k filename = s)
  ∨ (PyStr.endswith filename ".webm" = true
     ∧ exists evs,
         Convert.convert_file env s k filename = Convert.fail filename (Convert.clog evs s)
         ∨ Convert.convert_file env s k filename = Convert.keep (Convert.clog evs s)
         ∨ Convert.convert_file env s k filename = Convert.skip (Convert.clog evs s)).
Proof.
  unfold Convert.convert_file.
  destruct (PyStr.endswith filename ".webm"); [right|by left]. split; [done|].
  destruct s as [ff kc sc tr]. unfold Convert.clog, Convert.fail, Convert.keep, Convert.skip.
  simpl. repeat case_match; rewrite <- ?app_assoc; eauto 6.
Qed.

Lemma convert_all_processed names : forall s k,
  processed (Convert.convert_all env s k names)
  = processed s + length (filter (λ n, PyStr.endswith n ".webm") names).
Proof.
  induction names as [|filename names IH]; intros s k; simpl; [lia|].
  rewrite IH, filter_cons.
  destruct (convert_file_cases s k filename) as [[-> ->] | [-> (evs & [-> | [-> | ->]])]];
    unfold processed; simpl; rewrite ?length_app; simpl; lia.
Qed.

Lemma convert_all_failed names : forall s k,
  exists failed,
    Convert.failed_files (Convert.convert_all env s k names) = Convert.failed_files s ++ failed
    ∧ failed `sublist_of` filter (λ n, PyStr.endswith n ".webm") names.
Proof.
  induction names as [|filename names IH]; intros s k; simpl.
  - exists []. by rewrite app_nil_r.
  - destruct (IH (Convert.convert_file env s k filename) (S k)) as (failed & -> & Hsub).
    rewrite filter_cons.
    destruct (convert_file_cases s k filename) as [[-> ->] | [-> (evs & [-> | [-> | ->]])]]; simpl.
    + by exists failed.
    + exists (filename :: failed). rewrite <- app_assoc. split; [done|]. by constructor.
    + exists failed. split; [done|]. by constructor.
    + exists failed. split; [done|]. by constructor.
Qed.

(** A copy is logged only after a duration of at most 30 s was parsed. *)
Lemma convert_file_copy s k filename src dst :
  EvCopy src dst ∈ Convert.ctrace (Convert.convert_file env s k filename) ->
  EvCopy src dst ∈ Convert.ctrace s
  ∨ (PyStr.endswith filename ".webm" = true
     ∧ src = os_path_join Convert.wav_folder (Convert.output_name filename)
     ∧ dst = os_path_join filtered_folder (Convert.output_name filename)
     ∧ exists stdout duration_sec,
         ffprobe env k src = Some stdout
         ∧ py_float env stdout = Some duration_sec
         ∧ F64.leb duration_sec Convert.threshold_sec = true).
Proof.
  unfold Convert.convert_file.
  destruct (PyStr.endswith filename ".webm"); [|by left].
  set (wav_path := os_path_join Convert.wav_folder (Convert.output_name filename)).
  set (kept_path := os_path_join filtered_folder (Convert.output_name filename)).
  assert (forall l : list Event, EvCopy src dst ∈ Convert.ctrace s ++ l ->
            (forall ev, ev ∈ l -> ev ≠ EvCopy src dst) ->
            EvCopy src dst ∈ Convert.ctrace s) as Hold.
  { intros l [?|Hl]%elem_of_app Hno; [done|]. by destruct (Hno _ Hl). }
  destruct (ffmpeg_ok env k _ Pcm16kMono wav_path); cbn [negb].
  - destruct (ffprobe env k wav_path) as [stdout|] eqn:Hprobe.
    + destruct (py_float env stdout) as [d|] eqn:Hfloat.
      * destruct (F64.leb d Convert.threshold_sec) eqn:Hle.
        -- assert (EvCopy src dst ∈ Convert.ctrace s
                     ++ [EvFfmpeg (os_path_join Convert.input_folder filename)
                           Pcm16kMono wav_path; EvProbe wav_path;
                         EvCopy wav_path kept_path] ->
                   EvCopy src dst ∈ Convert.ctrace s
                   ∨ (src = wav_path ∧ dst = kept_path)) as Hkeep.
           { intros [?|Hl]%elem_of_app; [by left|]. right.
             repeat (apply elem_of_cons in Hl as [Hl|Hl]; try discriminate).
             - by injection Hl as -> ->.
             - by apply elem_of_nil in Hl. }
           destruct (copy_ok env k wav_path kept_path); simpl;
             rewrite <- !app_assoc; simpl; intros Hin;
             (destruct (Hkeep Hin) as [?|[-> ->]]; [by left|right; eauto 10]).
        -- simpl. rewrite <- !app_assoc. simpl. intros Hin. left.
           apply (Hold _ Hin). intros ev Hev.
           repeat (apply elem_of_cons in Hev as [->|Hev]; [done|]).
           by apply elem_of_nil in Hev.
      * simpl. rewrite <- !app_assoc. simpl. intros Hin. left.
        apply (Hold _ Hin). intros ev Hev.
        repeat (apply elem_of_cons in Hev as [->|Hev]; [done|]).
        by apply elem_of_nil in Hev.
    + simpl. intros Hin. left. apply (Hold _ Hin). intros ev Hev.
      repeat (apply elem_of_cons in Hev as [->|Hev]; [done|]).
      by apply elem_of_nil in Hev.
  - simpl. intros Hin. left. apply (Hold _ Hin). intros ev Hev.
    repeat (apply elem_of_cons in Hev as [->|Hev]; [done|]).
    by apply elem_of_nil in Hev.
Qed.

Lemma convert_all_copy names : forall s k src dst,
  EvCopy src dst ∈ Convert.ctrace (Convert.convert_all env s k names) ->
  EvCopy src dst ∈ Convert.ctrace s
  ∨ exists i filename stdout duration_sec,
      names !! i = Some filename
      ∧ PyStr.endswith filename ".webm" = true
      ∧ src = os_path_join Convert.wav_folder (Convert.output_name filename)
      ∧ dst = os_path_join filtered_folder (Convert.output_name filename)
      ∧ ffprobe env (k + i) src = Some stdout
      ∧ py_float env stdout = Some duration_sec
      ∧ F64.leb duration_sec Convert.threshold_sec = true.
Proof.
  induction names as [|filename names IH]; intros s k src dst Hin; simpl in Hin.
  - by left.
  - destruct (IH _ _ _ _ Hin) as [Hprev|(i & f & stdout & d & Hi & Hrest)].
    + destruct (convert_file_copy s k filename src dst Hprev)
        as [?|(He & Hsrc & Hdst & stdout & d & Hp & Hf & Hle)]; [by left|].
      right. exists 0, filename, stdout, d. by rewrite Nat.add_0_r.
    + right. exists (S i), f, stdout, d. split; [done|].
      by replace (k + S i) with (S k + i) by lia.
Qed.

End ConvertFacts.

(** X11.  The conversion script accounts for every listed name ending in
    '.webm' exactly once, as kept, skipped or failed; other names are passed
    over; and the failed list holds names of the listing, in listing order. *)
Theorem convert_accounts_for_every_webm (env : Env) (s : Convert.CState) :
  convert_main env = Some s ->
  exists names,
    listdir env Convert.input_folder = Some names
    ∧ Convert.kept_count s + Convert.skipped_count s + length (Convert.failed_files s)
      = length (filter (λ n, PyStr.endswith n ".webm") names)
    ∧ Convert.failed_files s `sublist_of` filter (λ n, PyStr.endswith n ".webm") names.
Proof.
  unfold convert_main.
  destruct (makedirs_ok env Convert.wav_folder); [|done].
  destruct (makedirs_ok env filtered_folder); [|done]. cbn [negb].
  destruct (listdir env Convert.input_folder) as [names|]; [|done].
  cbn [mbind option_bind]. intros [= <-].
  exists names. split; [done|]. split.
  - pose proof (convert_all_processed env names Convert.init 0) as H.
    by unfold processed in H.
  - destruct (convert_all_failed env names Convert.init 0) as (failed & -> & Hsub). done.
Qed.

Lemma convert_accounts_for_every_webm_witness :
  exists names,
    listdir Demo.env Convert.input_folder = Some names
    ∧ Convert.kept_count (Convert.convert_all Demo.env Convert.init 0 ["a.webm"; "odd.webm"])
      + Convert.skipped_count (Convert.convert_all Demo.env Convert.init 0 ["a.webm"; "odd.webm"])
      + length (Convert.failed_files
                  (Convert.convert_all Demo.env Convert.init 0 ["a.webm"; "odd.webm"]))
      = length (filter (λ n, PyStr.endswith n ".webm") names)
    ∧ Convert.failed_files (Convert.convert_all Demo.env Convert.init 0 ["a.webm"; "odd.webm"])
      `sublist_of` filter (λ n, PyStr.endswith n ".webm") names.
Proof.
  apply (convert_accounts_for_every_webm Demo.env
           (Convert.convert_all Demo.env Convert.init 0 ["a.webm"; "odd.webm"])).
  reflexivity.
Defined.

(** X12.  The conversion script copies a file into 'filteredforwhisper' only
    after the probe output was parsed to a duration of at most 30 s: every copy
    in its log goes from the converted file of some listed '.webm' name to the
    file of the same name in 'filteredforwhisper', and that file's parsed
    duration is at most 30. *)
Theorem convert_copies_only_short_files (env : Env) (s : Convert.CState)
    (src dst : string) :
  convert_main env = Some s ->
  EvCopy src dst ∈ Convert.ctrace s ->
  exists names i filename stdout duration_sec,
    listdir env Convert.input_folder = Some names
    ∧ names !! i = Some filename
    ∧ PyStr.endswith filename ".webm" = true
    ∧ src = os_path_join Convert.wav_folder (Convert.output_name filename)
    ∧ dst = os_path_join filtered_folder (Convert.output_name filename)
    ∧ ffprobe env i src = Some stdout
    ∧ py_float env stdout = Some duration_sec
    ∧ F64.leb duration_sec Convert.threshold_sec = true.
Proof.
  unfold convert_main.
  destruct (makedirs_ok env Convert.wav_folder); [|done].
  destruct (makedirs_ok env filtered_folder); [|done]. cbn [negb].
  destruct (listdir env Convert.input_folder) as [names|]; [|done].
  cbn [mbind option_bind]. intros [= <-] Hin.
  destruct (convert_all_copy env names Convert.init 0 src dst Hin)
    as [Hnil|(i & filename & stdout & d & Hrest)].
  - by apply elem_of_nil in Hnil.
  - exists names, i, filename, stdout, d. by split.
Qed.

Lemma convert_copies_only_short_files_witness :
  exists names i filename stdout duration_sec,
    listdir Demo.env Convert.input_folder = Some names
    ∧ names !! i = Some filename
    ∧ PyStr.endswith filename ".webm" = true
    ∧ "wavaudios/a.wav" = os_path_join Convert.wav_folder (Convert.output_name filename)
    ∧ "filteredforwhisper/a.wav"
      = os_path_join filtered_folder (Convert.output_name filename)
    ∧ ffprobe Demo.env i "wavaudios/a.wav" = Some stdout
    ∧ py_float Demo.env stdout = Some duration_sec
    ∧ F64.leb duration_sec Convert.threshold_sec = true.
Proof.
  apply (convert_copies_only_short_files Demo.env
           (Convert.convert_all Demo.env Convert.init 0 ["a.webm"; "odd.webm"])).
  - reflexivity.
  - vm_compute. do 2 right. by left.
Defined.

(** ** Durations at the edge of the filter *)

Section ThresholdFacts.

Implicit Types (x y : spec_float).

Lemma ltb_asym x y : F64.ltb x y = true -> F64.ltb y x = false.
Proof.
  unfold F64.ltb, SFltb, SFcompare.
  destruct x as [[]|[]| |[] mx ex], y as [[]|[]| |[] my ey];
    simpl; try done; order_cases; try done; try lia.
Qed.

Lemma ltb_trans x y z : F64.ltb x y = true -> F64.ltb y z = true -> F64.ltb x z = true.
Proof.
  unfold F64.ltb, SFltb, SFcompare.
  destruct x as [[]|[]| |[] mx ex], y as [[]|[]| |[] my ey], z as [[]|[]| |[] mz ez];
    simpl; try done; order_cases; try done; try lia.
Qed.

Lemma ltb_not_nan x y :
  F64.ltb x y = true -> F64.is_nan x = false ∧ F64.is_nan y = false.
Proof. unfold F64.ltb, SFltb. by destruct x as [[]|[]| |[] ? ?], y as [[]|[]| |[] ? ?]. Qed.

(** Between two numbers that compare as equal, a non-zero finite one fixes
    the other. *)
Lemma finite_eq_inv s m e y :
  F64.leb (S754_finite s m e) y = true ->
  F64.ltb (S754_finite s m e) y = false ->
  y = S754_finite s m e.
Proof.
  unfold F64.leb, F64.ltb, SFleb, SFltb, SFcompare.
  destruct s, y as [[]|[]| |[] my ey]; simpl; try done;
    (destruct (Z.compare_spec e ey); simpl; try done);
    change (Pos.compare_cont Eq m my) with (Pos.compare m my);
    (destruct (Pos.compare_spec m my); simpl; try done);
    intros _ _; by subst.
Qed.

(** A short recording goes past the probe of a stage that has one. *)
Lemma process_row_short env st s idx row filename stdout :
  probes_duration st = true ->
  row !! "Recording Name" = Some filename ->
  PyStr.endswith filename ".wav" = true ->
  path_exists env idx (input_path filename) = true ->
  ffprobe env idx (input_path filename) = Some stdout ->
  F64.gtb (duration_of env stdout) F64.thirty = false ->
  process_row env st s idx row
  = augment_row env st (log [EvProbe (input_path filename)] s) idx filename.
Proof.
  intros Hp Hk He Hx Hs Hd. unfold process_row.
  rewrite (recording_name_present (df s) row filename Hk). cbn [mbind option_bind].
  rewrite He, Hx, Hp. cbn [negb]. rewrite Hs. cbn [mbind option_bind].
  by rewrite Hd.
Qed.

(** A row that went through the [try] statement after the probe. *)
Lemma augment_row_after_probe env st s idx filename s' :
  augment_row env st (log [EvProbe (input_path filename)] s) idx filename = Some s' ->
  deleted_count s' = deleted_count s
  ∧ not_found_count s' = not_found_count s
  ∧ success_count s' + failed_count s' = S (success_count s + failed_count s)
  ∧ trace s' = trace s ++ EvProbe (input_path filename) :: (transform env st idx filename).1.
Proof.
  intros H. pose proof (augment_row_counters env st _ idx filename s' H) as Hc.
  rewrite (augment_row_trace env st _ idx filename s' H). simpl.
  rewrite <- app_assoc. unfold counters in Hc.
  destruct (transform env st idx filename).2; injection Hc as -> -> -> ->;
    repeat split; simpl; lia.
Qed.

(** The conversion of a file whose duration was parsed. *)
Lemma convert_file_parsed env cs k webm stdout duration :
  PyStr.endswith webm ".webm" = true ->
  ffmpeg_ok env k (os_path_join Convert.input_folder webm) Pcm16kMono
    (os_path_join Convert.wav_folder (Convert.output_name webm)) = true ->
  ffprobe env k (os_path_join Convert.wav_folder (Convert.output_name webm))
    = Some stdout ->
  py_float env stdout = Some duration ->
  Convert.convert_file env cs k webm
  = let inp := os_path_join Convert.input_folder webm in
    let wav_path := os_path_join Convert.wav_folder (Convert.output_name webm) in
    let s2 := Convert.clog [EvProbe wav_path]
                (Convert.clog [EvFfmpeg inp Pcm16kMono wav_path] cs) in
    if F64.leb duration Convert.threshold_sec then
      let filtered_path := os_path_join filtered_folder (Convert.output_name webm) in
      let s3 := Convert.clog [EvCopy wav_path filtered_path] s2 in
      if copy_ok env k wav_path filtered_path then Convert.keep s3
      else Convert.fail webm s3
    else Convert.skip s2.
Proof.
  intros He Hok Hq Hf. unfold Convert.convert_file. by rewrite He, Hok, Hq, Hf.
Qed.

End ThresholdFacts.

(** X13.  The two filters agree on every duration that is a number, the
    bound of 30 s included.  For a duration of at most 30 s a probing stage
    sends the row on to its transform and leaves the deleted counter alone,
    and the conversion script copies the file (it is kept, or failed when the
    copy fails) and leaves the skipped counter alone.  For a longer one the
    stage counts the row as deleted and does nothing else, and the conversion
    script counts the file as skipped and copies nothing. *)
Theorem filters_agree_on_numbers (env : Env) (st : Stage) (s : State)
    (cs : Convert.CState) (idx k : nat) (row : gmap string string)
    (filename webm stdout : string) (duration : spec_float) :
  probes_duration st = true ->
  row !! "Recording Name" = Some filename ->
  PyStr.endswith filename ".wav" = true ->
  path_exists env idx (input_path filename) = true ->
  ffprobe env idx (input_path filename) = Some stdout ->
  PyStr.endswith webm ".webm" = true ->
  ffmpeg_ok env k (os_path_join Convert.input_folder webm) Pcm16kMono
    (os_path_join Convert.wav_folder (Convert.output_name webm)) = true ->
  ffprobe env k (os_path_join Convert.wav_folder (Convert.output_name webm))
    = Some stdout ->
  py_float env stdout = Some duration ->
  F64.is_nan duration = false ->
  if F64.leb duration (F64.of_Z 30) then
    (process_row env st s idx row
     = augment_row env st (log [EvProbe (input_path filename)] s) idx filename
     ∧ forall s', process_row env st s idx row = Some s' ->
         deleted_count s' = deleted_count s
         ∧ success_count s' + failed_count s' = S (success_count s + failed_count s)
         ∧ trace s' = trace s ++ EvProbe (input_path filename)
                        :: (transform env st idx filename).1)
    ∧ Convert.skipped_count (Convert.convert_file env cs k webm)
      = Convert.skipped_count cs
    ∧ Convert.kept_count (Convert.convert_file env cs k webm)
      = (if copy_ok env k (os_path_join Convert.wav_folder (Convert.output_name webm))
              (os_path_join filtered_folder (Convert.output_name webm))
         then S (Convert.kept_count cs) else Convert.kept_count cs)
    ∧ Convert.ctrace (Convert.convert_file env cs k webm)
      = Convert.ctrace cs
        ++ [EvFfmpeg (os_path_join Convert.input_folder webm) Pcm16kMono
              (os_path_join Convert.wav_folder (Convert.output_name webm));
            EvProbe (os_path_join Convert.wav_folder (Convert.output_name webm));
            EvCopy (os_path_join Convert.wav_folder (Convert.output_name webm))
              (os_path_join filtered_folder (Convert.output_name webm))]
  else
    (exists s', process_row env st s idx row = Some s'
       ∧ deleted_count s' = S (deleted_count s)
       ∧ success_count s' = success_count s
       ∧ failed_count s' = failed_count s
       ∧ not_found_count s' = not_found_count s
       ∧ df s' = df s
       ∧ trace s' = trace s ++ [EvProbe (input_path filename)])
    ∧ Convert.skipped_count (Convert.convert_file env cs k webm)
      = S (Convert.skipped_count cs)
    ∧ Convert.kept_count (Convert.convert_file env cs k webm) = Convert.kept_count cs
    ∧ Convert.failed_files (Convert.convert_file env cs k webm)
      = Convert.failed_files cs
    ∧ Convert.ctrace (Convert.convert_file env cs k webm)
      = Convert.ctrace cs
        ++ [EvFfmpeg (os_path_join Convert.input_folder webm) Pcm16kMono
              (os_path_join Convert.wav_folder (Convert.output_name webm));
            EvProbe (os_path_join Convert.wav_folder (Convert.output_name webm))].
Proof.
  intros Hp Hk He Hx Hs Hw Hok Hq Hf Hn.
  rewrite (convert_file_parsed env cs k webm stdout duration Hw Hok Hq Hf).
  cbn zeta. change Convert.threshold_sec with (F64.of_Z 30).
  assert (F64.gtb (duration_of env stdout) F64.thirty
          = negb (F64.leb duration (F64.of_Z 30))) as Hd.
  { unfold duration_of, F64.gtb. rewrite Hf.
    change (SFltb F64.thirty duration) with (F64.ltb (F64.of_Z 30) duration).
    by rewrite (leb_negb_ltb duration (F64.of_Z 30) Hn eq_refl), negb_involutive. }
  destruct (F64.leb duration (F64.of_Z 30)); simpl in Hd.
  - split.
    { split; [by eapply process_row_short|].
      intros s' Hs'.
      rewrite (process_row_short env st s idx row filename stdout) in Hs' by done.
      apply augment_row_after_probe in Hs' as (H1 & _ & H2 & H3). by repeat split. }
    destruct (copy_ok env k _ _); simpl; by rewrite <- !app_assoc.
  - split.
    { exists (incr_deleted (log [EvProbe (input_path filename)] s)).
      split; [by eapply process_row_too_long|]. by repeat split. }
    simpl. by rewrite <- !app_assoc.
Qed.

Lemma filters_agree_on_numbers_witness :
  ((process_row World.thirty_seconds Volume (init_state Volume Demo.manifest) 0
      (Demo.row "a.wav")
    = augment_row World.thirty_seconds Volume
        (log [EvProbe (input_path "a.wav")] (init_state Volume Demo.manifest)) 0 "a.wav"
    ∧ forall s', process_row World.thirty_seconds Volume (init_state Volume Demo.manifest)
                   0 (Demo.row "a.wav") = Some s' ->
        deleted_count s' = deleted_count (init_state Volume Demo.manifest)
        ∧ success_count s' + failed_count s'
          = S (success_count (init_state Volume Demo.manifest)
               + failed_count (init_state Volume Demo.manifest))
        ∧ trace s' = trace (init_state Volume Demo.manifest)
                     ++ EvProbe (input_path "a.wav")
                        :: (transform World.thirty_seconds Volume 0 "a.wav").1)
   ∧ Convert.skipped_count (Convert.convert_file World.thirty_seconds Convert.init 0 "a.webm")
     = Convert.skipped_count Convert.init
   ∧ Convert.kept_count (Convert.convert_file World.thirty_seconds Convert.init 0 "a.webm")
     = S (Convert.kept_count Convert.init)
   ∧ Convert.ctrace (Convert.convert_file World.thirty_seconds Convert.init 0 "a.webm")
     = Convert.ctrace Convert.init
       ++ [EvFfmpeg "webaudios/a.webm" Pcm16kMono "wavaudios/a.wav";
           EvProbe "wavaudios/a.wav";
           EvCopy "wavaudios/a.wav" "filteredforwhisper/a.wav"])
  ∧ ((exists s', process_row World.thirty_one_seconds Lowpass
                   (init_state Lowpass Demo.manifest) 0 (Demo.row "a.wav") = Some s'
        ∧ deleted_count s' = S (deleted_count (init_state Lowpass Demo.manifest))
        ∧ success_count s' = success_count (init_state Lowpass Demo.manifest)
        ∧ failed_count s' = failed_count (init_state Lowpass Demo.manifest)
        ∧ not_found_count s' = not_found_count (init_state Lowpass Demo.manifest)
        ∧ df s' = df (init_state Lowpass Demo.manifest)
        ∧ trace s' = trace (init_state Lowpass Demo.manifest)
                     ++ [EvProbe (input_path "a.wav")])
     ∧ Convert.skipped_count
         (Convert.convert_file World.thirty_one_seconds Convert.init 0 "a.webm")
       = S (Convert.skipped_count Convert.init)
     ∧ Convert.kept_count
         (Convert.convert_file World.thirty_one_seconds Convert.init 0 "a.webm")
       = Convert.kept_count Convert.init
     ∧ Convert.failed_files
         (Convert.convert_file World.thirty_one_seconds Convert.init 0 "a.webm")
       = Convert.failed_files Convert.init
     ∧ Convert.ctrace
         (Convert.convert_file World.thirty_one_seconds Convert.init 0 "a.webm")
       = Convert.ctrace Convert.init
         ++ [EvFfmpeg "webaudios/a.webm" Pcm16kMono "wavaudios/a.wav";
             EvProbe "wavaudios/a.wav"]).
Proof.
  split.
  - exact (filters_agree_on_numbers World.thirty_seconds Volume
             (init_state Volume Demo.manifest) Convert.init 0 0 (Demo.row "a.wav")
             "a.wav" "a.webm" "10.0" (F64.of_Z 30)
             eq_refl eq_refl eq_refl eq_refl eq_refl eq_refl eq_refl eq_refl eq_refl
             eq_refl).
  - exact (filters_agree_on_numbers World.thirty_one_seconds Lowpass
             (init_state Lowpass Demo.manifest) Convert.init 0 0 (Demo.row "a.wav")
             "a.wav" "a.webm" "10.0" (F64.of_Z 31)
             eq_refl eq_refl eq_refl eq_refl eq_refl eq_refl eq_refl eq_refl eq_refl
             eq_refl).
Defined.

(** X14.  A probe output that [float] reads as NaN is treated in opposite
    ways: the volume, noise and low-pass stages send the row on to the
    transform and leave the deleted counter alone, while the conversion
    script counts the file as skipped, neither kept nor failed, and does not
    copy it. *)
Theorem nan_duration (env : Env) (st : Stage) (s : State) (cs : Convert.CState)
    (idx k : nat) (row : gmap string string) (filename webm stdout : string) :
  probes_duration st = true ->
  row !! "Recording Name" = Some filename ->
  PyStr.endswith filename ".wav" = true ->
  path_exists env idx (input_path filename) = true ->
  ffprobe env idx (input_path filename) = Some stdout ->
  PyStr.endswith webm ".webm" = true ->
  ffmpeg_ok env k (os_path_join Convert.input_folder webm) Pcm16kMono
    (os_path_join Convert.wav_folder (Convert.output_name webm)) = true ->
  ffprobe env k (os_path_join Convert.wav_folder (Convert.output_name webm))
    = Some stdout ->
  py_float env stdout = Some S754_nan ->
  (process_row env st s idx row
   = augment_row env st (log [EvProbe (input_path filename)] s) idx filename
   ∧ forall s', process_row env st s idx row = Some s' ->
       deleted_count s' = deleted_count s
       ∧ success_count s' + failed_count s' = S (success_count s + failed_count s)
       ∧ trace s' = trace s ++ EvProbe (input_path filename)
                      :: (transform env st idx filename).1)
  ∧ Convert.skipped_count (Convert.convert_file env cs k webm)
    = S (Convert.skipped_count cs)
  ∧ Convert.kept_count (Convert.convert_file env cs k webm) = Convert.kept_count cs
  ∧ Convert.failed_files (Convert.convert_file env cs k webm) = Convert.failed_files cs
  ∧ Convert.ctrace (Convert.convert_file env cs k webm)
    = Convert.ctrace cs
      ++ [EvFfmpeg (os_path_join Convert.input_folder webm) Pcm16kMono
            (os_path_join Convert.wav_folder (Convert.output_name webm));
          EvProbe (os_path_join Convert.wav_folder (Convert.output_name webm))].
Proof.
  intros Hp Hk He Hx Hs Hw Hok Hq Hf.
  assert (F64.gtb (duration_of env stdout) F64.thirty = false) as Hd
    by (unfold duration_of; by rewrite Hf).
  split.
  { split; [by eapply process_row_short|].
    intros s' Hs'.
    rewrite (process_row_short env st s idx row filename stdout) in Hs' by done.
    apply augment_row_after_probe in Hs' as (H1 & _ & H2 & H3). by repeat split. }
  rewrite (convert_file_parsed env cs k webm stdout S754_nan Hw Hok Hq Hf).
  simpl. by rewrite <- !app_assoc.
Qed.

Lemma nan_duration_witness :
  (process_row World.nan_probe Volume (init_state Volume Demo.manifest) 0
     (Demo.row "a.wav")
   = augment_row World.nan_probe Volume
       (log [EvProbe (input_path "a.wav")] (init_state Volume Demo.manifest)) 0 "a.wav"
   ∧ forall s', process_row World.nan_probe Volume (init_state Volume Demo.manifest) 0
                  (Demo.row "a.wav") = Some s' ->
       deleted_count s' = deleted_count (init_state Volume Demo.manifest)
       ∧ success_count s' + failed_count s'
         = S (success_count (init_state Volume Demo.manifest)
              + failed_count (init_state Volume Demo.manifest))
       ∧ trace s' = trace (init_state Volume Demo.manifest)
                    ++ EvProbe (input_path "a.wav")
                       :: (transform World.nan_probe Volume 0 "a.wav").1)
  ∧ Convert.skipped_count (Convert.convert_file World.nan_probe Convert.init 0 "a.webm")
    = S (Convert.skipped_count Convert.init)
  ∧ Convert.kept_count (Convert.convert_file World.nan_probe Convert.init 0 "a.webm")
    = Convert.kept_count Convert.init
  ∧ Convert.failed_files (Convert.convert_file World.nan_probe Convert.init 0 "a.webm")
    = Convert.failed_files Convert.init
  ∧ Convert.ctrace (Convert.convert_file World.nan_probe Convert.init 0 "a.webm")
    = Convert.ctrace Convert.init
      ++ [EvFfmpeg (os_path_join Convert.input_folder "a.webm") Pcm16kMono
            (os_path_join Convert.wav_folder (Convert.output_name "a.webm"));
          EvProbe (os_path_join Convert.wav_folder (Convert.output_name "a.webm"))].
Proof.
  apply (nan_duration World.nan_probe Volume (init_state Volume Demo.manifest)
           Convert.init 0 0 (Demo.row "a.wav") "a.wav" "a.webm" "10.0"); reflexivity.
Defined.

(** ** The noise stage, sample by sample *)

Section ClipFacts.

Implicit Types (y : spec_float).

Lemma clip_saturates y :
  F64.is_nan y = false ->
  Np.clip y F64.minus_one F64.one
  = if F64.ltb y F64.minus_one then F64.minus_one
    else if F64.ltb F64.one y then F64.one
    else y.
Proof.
  intros Hn. unfold Np.clip, Np.clip_max, Np.clip_min. rewrite Hn.
  change (F64.gtb y F64.minus_one) with (F64.ltb F64.minus_one y).
  assert (F64.ltb F64.minus_one F64.one = true) as Hlh by reflexivity.
  destruct (F64.ltb y F64.minus_one) eqn:Hlo.
  - rewrite (ltb_asym _ _ Hlo). by rewrite Hlh.
  - destruct (F64.ltb F64.minus_one y) eqn:Hgt.
    + rewrite Hn. destruct (F64.ltb F64.one y) eqn:Hhi.
      * by rewrite (ltb_asym _ _ Hhi).
      * destruct (F64.ltb y F64.one) eqn:Hlt; [done|].
        symmetry. apply (finite_eq_inv false 4503599627370496 (-52) y); [|done].
        change (F64.leb F64.one y = true).
        rewrite leb_negb_ltb by done. by rewrite Hlt.
    + assert (y = F64.minus_one) as ->; [|reflexivity].
      apply (finite_eq_inv true 4503599627370496 (-52) y); [|done].
      change (F64.leb F64.minus_one y = true).
      rewrite leb_negb_ltb by done. by rewrite Hlo.
Qed.

End ClipFacts.

(** X15.  The clipping of the noise stage saturates: a sample below -1.0 is
    written as -1.0, one above 1.0 as 1.0, and every other number is written
    unchanged. *)
Theorem clip_all_saturates (data : list spec_float) (k : nat) (y : spec_float) :
  data !! k = Some y ->
  F64.is_nan y = false ->
  NoiseStage.clip_all data !! k
  = Some (if F64.ltb y F64.minus_one then F64.minus_one
          else if F64.ltb F64.one y then F64.one
          else y).
Proof.
  intros Hk Hn. unfold NoiseStage.clip_all. rewrite list_lookup_fmap, Hk. simpl.
  by rewrite clip_saturates.
Qed.

Lemma clip_all_saturates_witness :
  NoiseStage.clip_all [F64.of_Z 3; Demo.minus_half] !! 0
  = Some (if F64.ltb (F64.of_Z 3) F64.minus_one then F64.minus_one
          else if F64.ltb F64.one (F64.of_Z 3) then F64.one
          else F64.of_Z 3).
Proof.
  apply (clip_all_saturates [F64.of_Z 3; Demo.minus_half] 0 (F64.of_Z 3)); reflexivity.
Defined.

(** X16.  A recording that decodes to an empty buffer makes the noise stage
    fail for that row: [np.amax] raises, the failed counter goes up by one,
    and after the probe and the decode nothing is written. *)
Theorem empty_recording_fails_noise_row (env : Env) (s : State) (idx : nat)
    (row : gmap string string) (filename : string) (sr : Z) :
  row !! "Recording Name" = Some filename ->
  reaches_transform env Noise idx filename = true ->
  sf_read env idx (input_path filename) = Some ([], sr) ->
  exists s', process_row env Noise s idx row = Some s'
    ∧ counters s' = (success_count s, S (failed_count s), not_found_count s,
                     deleted_count s)
    ∧ trace s' = trace s ++ [EvProbe (input_path filename); EvSfRead (input_path filename)]
    ∧ derived_files (trace s') = derived_files (trace s).
Proof.
  intros Hk Hr Hread.
  assert (transform env Noise idx filename = ([EvSfRead (input_path filename)], None)) as Ht.
  { unfold transform. by rewrite Hread. }
  destruct (augment_row_returns env Noise (log (probe_events Noise filename) s)
              idx filename) as [s' Hs']; [done|].
  exists s'. split; [by rewrite (process_row_reaches env Noise s idx row filename)|].
  rewrite (augment_row_counters _ _ _ _ _ _ Hs'), (augment_row_trace _ _ _ _ _ _ Hs'), Ht.
  simpl. split; [done|]. rewrite <- app_assoc. split; [done|].
  unfold derived_files. rewrite omap_app. simpl. by rewrite app_nil_r.
Qed.

Lemma empty_recording_fails_noise_row_witness :
  exists s', process_row World.empty_audio Noise (init_state Noise Demo.manifest) 0
               (Demo.row "a.wav") = Some s'
    ∧ counters s' = (success_count (init_state Noise Demo.manifest),
                     S (failed_count (init_state Noise Demo.manifest)),
                     not_found_count (init_state Noise Demo.manifest),
                     deleted_count (init_state Noise Demo.manifest))
    ∧ trace s' = trace (init_state Noise Demo.manifest)
                 ++ [EvProbe (input_path "a.wav"); EvSfRead (input_path "a.wav")]
    ∧ derived_files (trace s') = derived_files (trace (init_state Noise Demo.manifest)).
Proof.
  apply (empty_recording_fails_noise_row World.empty_audio (init_state Noise Demo.manifest)
           0 (Demo.row "a.wav") "a.wav" 16000%Z); reflexivity.
Defined.

(** X17.  For a non-empty decoded buffer the noise stage hands the writer a
    buffer with as many samples as it read, at the sample rate it read, and
    addresses it to the output path of the row; the row succeeds exactly when
    that write returns. *)
Theorem noise_stage_writes_what_it_read (env : Env) (idx : nat) (filename : string)
    (data : list spec_float) (sr : Z) :
  sf_read env idx (input_path filename) = Some (data, sr) ->
  data ≠ [] ->
  exists noisy,
    NoiseStage.noisy_data (np_uniform env idx) (np_normal env idx) data = Some noisy
    ∧ length noisy = length data
    ∧ transform env Noise idx filename
      = ([EvSfRead (input_path filename);
          EvSfWrite (output_path Noise filename) noisy sr],
         if sf_write_ok env idx (output_path Noise filename) noisy sr
         then Some (output_path Noise filename) else None).
Proof.
  intros Hread Hne.
  destruct data as [|x data]; [done|].
  eexists. split; [reflexivity|]. split.
  - unfold NoiseStage.clip_all, NoiseStage.add_noise. by rewrite length_fmap, length_imap.
  - unfold transform. by rewrite Hread.
Qed.

Lemma noise_stage_writes_what_it_read_witness :
  exists noisy,
    NoiseStage.noisy_data (np_uniform Demo.env 0) (np_normal Demo.env 0) Demo.samples
      = Some noisy
    ∧ length noisy = length Demo.samples
    ∧ transform Demo.env Noise 0 "a.wav"
      = ([EvSfRead (input_path "a.wav");
          EvSfWrite (output_path Noise "a.wav") noisy 16000%Z],
         if sf_write_ok Demo.env 0 (output_path Noise "a.wav") noisy 16000%Z
         then Some (output_path Noise "a.wav") else None).
Proof.
  apply (noise_stage_writes_what_it_read Demo.env 0 "a.wav" Demo.samples 16000%Z).
  - reflexivity.
  - discriminate.
Defined.

(** X18.  For a name in which '.wav' occurs once, as the extension, the
    derived file is named by putting the transform suffix before the
    extension: stem, suffix, '.wav'. *)
Theorem derived_name_for_plain_names (st : Stage) (filename : string) :
  PyStr.endswith filename ".wav" = true ->
  PyStr.count filename ".wav" = 1 ->
  filename = strip_suffix filename ".wav" +:+ ".wav"
  ∧ output_name st filename = strip_suffix filename ".wav" +:+ suffix st +:+ ".wav".
Proof.
  intros He Hc. split; [by apply strip_suffix_app|].
  by apply output_name_single_occurrence.
Qed.

Lemma derived_name_for_plain_names_witness :
  "surah.001.wav" = strip_suffix "surah.001.wav" ".wav" +:+ ".wav"
  ∧ output_name Volume "surah.001.wav"
    = strip_suffix "surah.001.wav" ".wav" +:+ suffix Volume +:+ ".wav".
Proof.
  apply (derived_name_for_plain_names Volume "surah.001.wav"); reflexivity.
Defined.

(** ** Derived files of a run *)

Section DerivedFacts.

Variables (env : Env) (st : Stage).

Implicit Types (s : State) (row : gmap string string).

Lemma derived_files_app evs1 evs2 :
  derived_files (evs1 ++ evs2) = derived_files evs1 ++ derived_files evs2.
Proof. apply omap_app. Qed.

(** A transform names one output file, unless the noise stage fails before
    it writes. *)
Lemma transform_derived idx filename :
  length (derived_files (transform env st idx filename).1) <= 1
  ∧ (is_Some (transform env st idx filename).2 ∨ st ≠ Noise ->
     length (derived_files (transform env st idx filename).1) = 1).
Proof.
  unfold transform. destruct st; repeat case_match; simpl; split; try lia; try done;
    intros [[? [=]]|?]; done.
Qed.

Lemma process_row_derived s idx row s' :
  process_row env st s idx row = Some s' ->
  success_count s' + length (derived_files (trace s))
    <= length (derived_files (trace s')) + success_count s
  ∧ length (derived_files (trace s')) + success_count s + failed_count s
    <= length (derived_files (trace s)) + success_count s' + failed_count s'
  ∧ (st ≠ Noise ->
     length (derived_files (trace s')) + success_count s + failed_count s
     = length (derived_files (trace s)) + success_count s' + failed_count s').
Proof.
  intros H. apply process_row_cases in H as (filename & _ & [H|[H|[H|H]]]).
  - destruct H as [_ ->]. lia.
  - destruct H as (_ & _ & ->). simpl. lia.
  - destruct H as (_ & _ & _ & ->). simpl. rewrite derived_files_app. simpl.
    rewrite length_app. simpl. lia.
  - destruct H as (_ & H).
    pose proof (augment_row_counters env st _ idx filename s' H) as Hc.
    rewrite (augment_row_trace env st _ idx filename s' H). simpl in *. rewrite !derived_files_app, !length_app.
    assert (length (derived_files (probe_events st filename)) = 0) as ->
      by (unfold probe_events; by destruct (probes_duration st)).
    destruct (transform_derived idx filename) as [Hle Heq].
    unfold counters in Hc.
    destruct (transform env st idx filename).2 as [out|] eqn:Ht;
      injection Hc as -> -> _ _.
    + rewrite Heq by (left; by eexists). lia.
    + split; [lia|]. split; [lia|]. intros Hst. rewrite Heq by by right. lia.
Qed.

Lemma iterrows_derived rows : forall s idx s',
  iterrows env st s idx rows = Some s' ->
  success_count s' + length (derived_files (trace s))
    <= length (derived_files (trace s')) + success_count s
  ∧ length (derived_files (trace s')) + success_count s + failed_count s
    <= length (derived_files (trace s)) + success_count s' + failed_count s'
  ∧ (st ≠ Noise ->
     length (derived_files (trace s')) + success_count s + failed_count s
     = length (derived_files (trace s)) + success_count s' + failed_count s').
Proof.
  induction rows as [|row rows IH]; intros s idx s' H; simpl in H.
  - injection H as <-. lia.
  - destruct (process_row env st s idx row) as [s1|] eqn:Hrow; [|done].
    cbn [mbind option_bind] in H.
    apply process_row_derived in Hrow as (Ha & Hb & Hc).
    apply IH in H as (Ha' & Hb' & Hc').
    split; [lia|]. split; [lia|]. intros Hst.
    specialize (Hc Hst). specialize (Hc' Hst). lia.
Qed.

End DerivedFacts.

(** X19.  Over a run, the number of derived files handed to the transcoder or
    the writer lies between the success counter and the sum of the success and
    failed counters; in the three transcoder stages it equals that sum, every
    row that reaches the transform naming exactly one output file. *)
Theorem derived_files_match_attempts (env : Env) (st : Stage) (d : DataFrame)
    (s_end : State) :
  run env st d = Some s_end ->
  success_count s_end <= length (derived_files (trace s_end))
  ∧ length (derived_files (trace s_end)) <= success_count s_end + failed_count s_end
  ∧ (st ≠ Noise ->
     length (derived_files (trace s_end)) = success_count s_end + failed_count s_end).
Proof.
  unfold run. intros Hrun. apply iterrows_derived in Hrun as (Ha & Hb & Hc).
  simpl in *. split; [lia|]. split; [lia|]. intros Hst. specialize (Hc Hst). lia.
Qed.

Lemma derived_files_match_attempts_witness :
  success_count (Demo.final Volume) <= length (derived_files (trace (Demo.final Volume)))
  ∧ length (derived_files (trace (Demo.final Volume)))
    <= success_count (Demo.final Volume) + failed_count (Demo.final Volume)
  ∧ (Volume ≠ Noise ->
     length (derived_files (trace (Demo.final Volume)))
     = success_count (Demo.final Volume) + failed_count (Demo.final Volume)).
Proof.
  apply (derived_files_match_attempts Demo.env Volume Demo.manifest (Demo.final Volume)).
  vm_compute. reflexivity.
Defined.
